(** * The payment handler of [src/main.js], embedded in Rocq

    [src/main.js] exports one asynchronous function.  It reads
    [context.req.body], parses it, validates it, calls the PayPal SDK once and
    answers through [context.res.json].  This file first writes down the part
    of the JavaScript run time the function relies on (values, IEEE doubles,
    [ToString], [parseFloat], [Number.prototype.toFixed], [JSON.parse], the
    regular expression of the order id), then the handler itself, statement by
    statement, and finally the properties of the handler.

    Conventions.
    - A JavaScript string is a Rocq [string] holding its UTF-8 bytes.
    - A JavaScript number is a binary64 value, [spec_float] with precision 53
      and maximal exponent 1024.
    - The request body, the responses of the SDK and the properties of an
      error are JSON values or [undefined]; what is thrown is an Error
      object.
    - [context.req] and [context.res] are there, and the object given to
      [context.res.json] is what the handler returns.
    - A conversion to a string can throw: a TypeError for an object with an
      own [toString] property, a RangeError for arrays nested beyond the
      room of the call stack, which is a parameter of the host.
    - The messages of the TypeErrors and RangeErrors are those of V8, the
      engine of Node. *)

From Stdlib Require Import ZArith List String Ascii Bool Lia.
From Stdlib Require Import SpecFloat DecimalString DecimalPos.
Import ListNotations.

#[local] Set Warnings "-register-all".

Local Open Scope string_scope.
Local Open Scope Z_scope.

(* ================================================================== *)
(** * Characters and decimal text *)

Module Text.

Definition code (c : ascii) : Z := Z.of_N (N_of_ascii c).

Definition chr (z : Z) : ascii := ascii_of_N (Z.to_N z).

Definition between (lo hi : Z) (c : ascii) : bool :=
  (lo <=? code c) && (code c <=? hi).

Definition is_digit : ascii -> bool := between 48 57.

Definition is_upper : ascii -> bool := between 65 90.

Definition is_lower : ascii -> bool := between 97 122.

Definition digit_value (c : ascii) : Z := code c - 48.

Definition digit_char (d : Z) : ascii := chr (48 + d).

(** The decimal numeral of a natural number, without leading zeros. *)
Definition decimal (z : Z) : string :=
  NilEmpty.string_of_uint (N.to_uint (Z.to_N z)).

(** The longest prefix of decimal digits, and what follows it. *)
Fixpoint span_digits (s : string) : string * string :=
  match s with
  | String c r =>
      if is_digit c
      then let (ds, rest) := span_digits r in (String c ds, rest)
      else (EmptyString, s)
  | EmptyString => (EmptyString, EmptyString)
  end.

(** The number a string of decimal digits denotes, most significant first. *)
Fixpoint digits_value (acc : Z) (s : string) : Z :=
  match s with
  | String c r => digits_value (10 * acc + digit_value c) r
  | EmptyString => acc
  end.

Definition len (s : string) : Z := Z.of_nat (String.length s).

Fixpoint repeat_char (c : ascii) (n : nat) : string :=
  match n with
  | O => EmptyString
  | S k => String c (repeat_char c k)
  end.

Definition zeros (n : Z) : string := repeat_char "0"%char (Z.to_nat n).

(** [strip p s] is [Some r] when [s = p ++ r]. *)
Fixpoint strip (p s : string) : option string :=
  match p, s with
  | EmptyString, _ => Some s
  | String a p', String b s' => if Ascii.eqb a b then strip p' s' else None
  | String _ _, EmptyString => None
  end.

Definition is_empty (s : string) : bool :=
  match s with EmptyString => true | String _ _ => false end.

Fixpoint all_chars (f : ascii -> bool) (s : string) : bool :=
  match s with
  | EmptyString => true
  | String c r => f c && all_chars f r
  end.

(** [s] between two quotation marks. *)
Definition quoted (s : string) : string :=
  String (chr 34) s ++ String (chr 34) EmptyString.

End Text.

(* ================================================================== *)
(** * Numbers: IEEE 754 binary64 *)

Module Number.

Definition number := spec_float.

Definition prec : Z := 53.
Definition emax : Z := 1024.

Definition NaN : number := S754_nan.
Definition Infinity : number := S754_infinity false.
Definition zero : number := S754_zero false.

(** The double nearest to an integer. *)
Definition of_Z (z : Z) : number := binary_normalize prec emax z 0 false.

(** The double nearest to [d * 10^p] for [d >= 0], ties to even; [neg] is the
    sign.  One rounding, of the exact quotient when [p < 0]. *)
Definition of_decimal (neg : bool) (d p : Z) : number :=
  match d with
  | Zpos m =>
      if 0 <=? p
      then binary_round prec emax neg (Z.to_pos (Zpos m * 10 ^ p)) 0
      else SFdiv prec emax (S754_finite neg m 0)
                 (S754_finite false (Z.to_pos (10 ^ (- p))) 0)
  | _ => S754_zero neg
  end.

(** The global [isNaN] on a number. *)
Definition isNaN (x : number) : bool :=
  match x with S754_nan => true | _ => false end.

(** [x <= y] of JavaScript: false as soon as one side is NaN. *)
Definition le (x y : number) : bool := SFleb x y.

Definition is_zero (x : number) : bool :=
  match x with S754_zero _ => true | _ => false end.

Definition eqb (x y : number) : bool :=
  match x, y with
  | S754_nan, S754_nan => true
  | S754_zero a, S754_zero b => Bool.eqb a b
  | S754_infinity a, S754_infinity b => Bool.eqb a b
  | S754_finite a m e, S754_finite b n f =>
      Bool.eqb a b && Pos.eqb m n && Z.eqb e f
  | _, _ => false
  end.

(** The exact value [m * 2^e] of a finite double, as a fraction. *)
Definition fraction (m : positive) (e : Z) : Z * Z :=
  if 0 <=? e then (Zpos m * 2 ^ e, 1) else (Zpos m, 2 ^ (- e)).

(** [x < z] for an integer [z], decided on the exact value of [x]. *)
Definition below (x : number) (z : Z) : bool :=
  match x with
  | S754_nan => false
  | S754_infinity s => s
  | S754_zero _ => 0 <? z
  | S754_finite s m e =>
      let (num, den) := fraction m e in
      if s then - num <? z * den else num <? z * den
  end.

(** [x * 10^p] as a fraction, for [x = num / den]. *)
Definition scaled (x : Z * Z) (p : Z) : Z * Z :=
  let (num, den) := x in
  if 0 <=? p then (num * 10 ^ p, den) else (num, den * 10 ^ (- p)).

(** How many decimal digits a positive integer has. *)
Fixpoint count_digits (fuel : nat) (z : Z) : Z :=
  match fuel with
  | O => 0
  | S f => if z <? 10 then 1 else 1 + count_digits f (z / 10)
  end.

Definition ndigits (z : Z) : Z := count_digits (S (Z.to_nat (Z.log2 z))) z.

(** The decimal exponent [n] of a positive fraction: [10^(n-1) <= x < 10^n]. *)
Definition magnitude (x : Z * Z) : Z :=
  let g := ndigits (fst x) - ndigits (snd x) in
  let (num, den) := scaled x (- g) in
  if den <=? num then g + 1 else g.

(** Number::toString looks for the fewest digits [k] such that some [s] of [k]
    digits has [s * 10^(n-k)] rounding to [x].  At a given [k] only the two
    neighbours of [x] on the grid [10^(n-k)] can do; the nearer one wins. *)
Definition shortest_at (x : number) (q : Z * Z) (n k : Z) : option Z :=
  let p := k - n in
  let (num, den) := scaled q p in
  let lo := num / den in
  let r := num mod den in
  let lo_ok := eqb (of_decimal false lo (- p)) x in
  let hi_ok := eqb (of_decimal false (lo + 1) (- p)) x in
  let lo_nearer := (2 * r <? den) || ((2 * r =? den) && Z.even lo) in
  match lo_ok, hi_ok with
  | true, true => Some (if lo_nearer then lo else lo + 1)
  | true, false => Some lo
  | false, true => Some (lo + 1)
  | false, false => None
  end.

(** Tries [k], [k+1], ... ; seventeen digits always identify a double. *)
Fixpoint shortest_from (fuel : nat) (x : number) (q : Z * Z) (n k : Z)
  : Z * Z :=
  match fuel with
  | O => (fst (scaled q (k - n)) / snd (scaled q (k - n)), k)
  | S f =>
      match shortest_at x q n k with
      | Some s => (s, k)
      | None => shortest_from f x q n (k + 1)
      end
  end.

(** The text of the digits [s] ([k] of them) with decimal exponent [n]. *)
Definition layout (ds : string) (k n : Z) : string :=
  if (k <=? n) && (n <=? 21) then ds ++ Text.zeros (n - k)
  else if (0 <? n) && (n <=? 21) then
    substring 0 (Z.to_nat n) ds ++ "." ++
    substring (Z.to_nat n) (Z.to_nat (k - n)) ds
  else if (-6 <? n) && (n <=? 0) then "0." ++ Text.zeros (- n) ++ ds
  else
    let e := n - 1 in
    let sign := if 0 <=? e then "+" else "-" in
    let mantissa :=
      if k =? 1 then ds
      else substring 0 1 ds ++ "." ++ substring 1 (Z.to_nat (k - 1)) ds in
    mantissa ++ "e" ++ sign ++ Text.decimal (Z.abs e).

Definition positive_toString (m : positive) (e : Z) : string :=
  let x := S754_finite false m e in
  let q := fraction m e in
  let n := magnitude q in
  let (s, k) := shortest_from 17 x q n 1 in
  (* the upper neighbour may be [10^k]: one digit more, the same [k] *)
  if s =? 10 ^ k then layout (Text.decimal (10 ^ (k - 1))) k (n + 1)
  else layout (Text.decimal s) k n.

(** Number::toString, radix 10. *)
Definition toString (x : number) : string :=
  match x with
  | S754_nan => "NaN"
  | S754_zero _ => "0"
  | S754_infinity s => if s then "-Infinity" else "Infinity"
  | S754_finite s m e =>
      (if s then "-" else "") ++ positive_toString m e
  end.

(** The last [f] decimal digits of [r], zero padded. *)
Fixpoint fraction_digits (f : nat) (r : Z) : string :=
  match f with
  | O => EmptyString
  | S f' =>
      fraction_digits f' (r / 10) ++ String (Text.digit_char (r mod 10)) ""
  end.

(** Number.prototype.toFixed(f): the integer [n] nearest to [x * 10^f], the
    larger one at a tie, written with [f] digits after the point; a value that
    is not finite or is at least [10^21] is written by [toString]. *)
Definition toFixed (f : nat) (x : number) : string :=
  match x with
  | S754_finite s m e =>
      let (num, den) := fraction m e in
      if 10 ^ 21 * den <=? num then toString x
      else
        let scale := 10 ^ Z.of_nat f in
        let n := (2 * scale * num + den) / (2 * den) in
        (if s then "-" else "") ++ Text.decimal (n / scale) ++
        (match f with O => "" | S _ => "." ++ fraction_digits f (n mod scale) end)
  | S754_zero _ =>
      "0" ++ (match f with O => "" | S _ => "." ++ fraction_digits f 0 end)
  | _ => toString x
  end.

End Number.

(* ================================================================== *)
(** * Values *)

Module Js.

Import Number.

(** The values a JSON text denotes, and [undefined].  An object lists its own
    properties in insertion order; a name occurs once. *)
Inductive value : Type :=
| VUndefined
| VNull
| VBoolean (b : bool)
| VNumber (n : number)
| VString (s : string)
| VArray (elements : list value)
| VObject (properties : list (string * value)).

(** ToBoolean. *)
Definition truthy (v : value) : bool :=
  match v with
  | VUndefined | VNull => false
  | VBoolean b => b
  | VNumber n => negb (isNaN n || is_zero n)
  | VString s => negb (Text.is_empty s)
  | VArray _ | VObject _ => true
  end.

(** [null] or [undefined]: the values whose properties cannot be read. *)
Definition nullish (v : value) : bool :=
  match v with
  | VUndefined | VNull => true
  | _ => false
  end.

(** [a || b]. *)
Definition or_else (a b : value) : value := if truthy a then a else b.

(** [typeof v === 'string']. *)
Definition is_string (v : value) : bool :=
  match v with VString _ => true | _ => false end.

(** [v === s] for a string literal [s]: no conversion takes place. *)
Definition is_literal (v : value) (s : string) : bool :=
  match v with VString t => String.eqb t s | _ => false end.

Fixpoint assoc (k : string) (ps : list (string * value)) : value :=
  match ps with
  | [] => VUndefined
  | (k', v) :: rest => if String.eqb k k' then v else assoc k rest
  end.

Fixpoint has_key (k : string) (ps : list (string * value)) : bool :=
  match ps with
  | [] => false
  | (k', _) :: rest => String.eqb k k' || has_key k rest
  end.

(** Writing property [k]: an existing name keeps its place. *)
Fixpoint assign (k : string) (v : value) (ps : list (string * value))
  : list (string * value) :=
  match ps with
  | [] => [(k, v)]
  | (k', v') :: rest =>
      if String.eqb k k' then (k, v) :: rest else (k', v') :: assign k v rest
  end.

(** What [v.k] evaluates to when [v] is neither [null] nor [undefined], for
    the names the handler reads ([action], [data], [amount], [currency],
    [orderId], [result], [links], [rel], [href], [id], [status], [payer],
    [create_time], [purchase_units]): none of them is inherited from a
    prototype, so primitives and arrays answer [undefined]. *)
Definition property (v : value) (k : string) : value :=
  match v with
  | VObject ps => assoc k ps
  | _ => VUndefined
  end.

(** ** ToString

    A conversion to a string returns or throws.  An object is converted by
    its [toString]: the inherited one answers [[object Object]]; an own
    property of that name, which in a JSON value is never a function, leaves
    no way to a primitive, and the conversion throws a TypeError.  An array is
    converted by [Array.prototype.join], which converts the elements from left
    to right, [null] and [undefined] elements being empty, and calls itself
    for an array among them: each level of nesting takes room on the call
    stack, and when the room is used up the engine throws a RangeError. *)
Inductive conversion (A : Type) : Type :=
| Converted (a : A)
| NotPrimitive
| StackExceeded.

Arguments Converted {A} a.
Arguments NotPrimitive {A}.
Arguments StackExceeded {A}.

Definition convert_with {A B : Type} (f : A -> B) (c : conversion A)
  : conversion B :=
  match c with
  | Converted a => Converted (f a)
  | NotPrimitive => NotPrimitive
  | StackExceeded => StackExceeded
  end.

(** [room] is the number of nested calls of [join] the stack still holds. *)
Fixpoint ToString (room : nat) (v : value) {struct v} : conversion string :=
  match v with
  | VUndefined => Converted "undefined"
  | VNull => Converted "null"
  | VBoolean b => Converted (if b then "true" else "false")
  | VNumber n => Converted (Number.toString n)
  | VString s => Converted s
  | VArray l =>
      match room with
      | O => StackExceeded
      | S room' =>
          let element (x : value) : conversion string :=
            match x with
            | VUndefined | VNull => Converted ""
            | _ => ToString room' x
            end in
          (fix join (l : list value) : conversion string :=
             match l with
             | [] => Converted ""
             | [x] => element x
             | x :: rest =>
                 match element x with
                 | Converted first =>
                     convert_with (fun others => first ++ "," ++ others)
                                  (join rest)
                 | failure => failure
                 end
             end) l
      end
  | VObject ps =>
      if has_key "toString" ps then NotPrimitive
      else Converted "[object Object]"
  end.

(** ** parseFloat *)

(** StrWhiteSpaceChar, in UTF-8: TAB, LF, VT, FF, CR, SP, U+00A0, U+1680,
    U+2000..U+200A, U+2028, U+2029, U+202F, U+205F, U+3000, U+FEFF. *)
Fixpoint trim_start (s : string) : string :=
  match s with
  | String a r =>
      let c := Text.code a in
      if ((9 <=? c) && (c <=? 13)) || (c =? 32) then trim_start r
      else
        match r with
        | String b r2 =>
            if (c =? 194) && (Text.code b =? 160) then trim_start r2
            else
              match r2 with
              | String d r3 =>
                  let y := Text.code b in
                  let z := Text.code d in
                  if ((c =? 225) && (y =? 154) && (z =? 128))
                     || ((c =? 226) && (y =? 128)
                         && (((128 <=? z) && (z <=? 138))
                             || (z =? 168) || (z =? 169) || (z =? 175)))
                     || ((c =? 226) && (y =? 129) && (z =? 159))
                     || ((c =? 227) && (y =? 128) && (z =? 128))
                     || ((c =? 239) && (y =? 187) && (z =? 191))
                  then trim_start r3
                  else s
              | EmptyString => s
              end
        | EmptyString => s
        end
  | EmptyString => s
  end.

(** An optional sign: whether it is [-], and the rest. *)
Definition read_sign (s : string) : bool * string :=
  match s with
  | String "-"%char r => (true, r)
  | String "+"%char r => (false, r)
  | _ => (false, s)
  end.

(** ExponentPart when one starts [s]: [e] or [E], an optional sign, digits.
    Without digits there is no exponent part and the exponent is 0. *)
Definition read_exponent (s : string) : Z :=
  match s with
  | String c r =>
      if Ascii.eqb c "e" || Ascii.eqb c "E" then
        let (neg, r1) := read_sign r in
        let (ds, _) := Text.span_digits r1 in
        if Text.is_empty ds then 0
        else if neg then - Text.digits_value 0 ds else Text.digits_value 0 ds
      else 0
  | EmptyString => 0
  end.

(** The value of the longest prefix of [s] that is a StrDecimalLiteral, [NaN]
    when there is none. *)
Definition read_decimal_literal (s : string) : number :=
  let (neg, r) := read_sign s in
  match Text.strip "Infinity" r with
  | Some _ => S754_infinity neg
  | None =>
      let (int_part, r1) := Text.span_digits r in
      let (frac_part, r2) :=
        match r1 with
        | String "."%char r' => Text.span_digits r'
        | _ => (EmptyString, r1)
        end in
      if Text.is_empty int_part && Text.is_empty frac_part then NaN
      else
        of_decimal neg
          (Text.digits_value 0 (int_part ++ frac_part))
          (read_exponent r2 - Text.len frac_part)
  end.

(** What [parseFloat] reads in a string: leading white space is skipped. *)
Definition parseFloat_text (s : string) : number :=
  read_decimal_literal (trim_start s).

(** [parseFloat(v)]: the argument is converted to a string first. *)
Definition parseFloat (room : nat) (v : value) : conversion number :=
  convert_with parseFloat_text (ToString room v).

(** ** The regular expression of the order id *)

(** [/^[A-Z0-9]{17}$/.test(v)]: the argument is converted to a string, which
    must be seventeen characters, each an upper-case letter or a digit. *)
Definition order_id_pattern (s : string) : bool :=
  (Text.len s =? 17)
  && Text.all_chars (fun c => Text.is_upper c || Text.is_digit c) s.

Definition test_order_id (room : nat) (v : value) : conversion bool :=
  convert_with order_id_pattern (ToString room v).

(** ** JSON.parse *)

(** The text is cut into tokens by a machine that reads one character at a
    time, and the tokens are assembled with an explicit stack of the
    containers that are still open; both are structural recursions. *)

Inductive token : Type :=
| TLBrace | TRBrace | TLBracket | TRBracket | TColon | TComma
| TString (s : string)
| TAtom (v : value).

(** What a string literal contributes: a byte of the text, or the UTF-16 code
    unit of a [\uXXXX] escape. *)
Inductive piece : Type :=
| Raw (c : ascii)
| CodeUnit (u : Z).

Definition utf8 (cp : Z) : string :=
  if cp <? 128 then String (Text.chr cp) ""
  else if cp <? 2048 then
    String (Text.chr (192 + cp / 64)) (String (Text.chr (128 + cp mod 64)) "")
  else if cp <? 65536 then
    String (Text.chr (224 + cp / 4096))
      (String (Text.chr (128 + (cp / 64) mod 64))
         (String (Text.chr (128 + cp mod 64)) ""))
  else
    String (Text.chr (240 + cp / 262144))
      (String (Text.chr (128 + (cp / 4096) mod 64))
         (String (Text.chr (128 + (cp / 64) mod 64))
            (String (Text.chr (128 + cp mod 64)) ""))).

Definition is_high_surrogate (u : Z) : bool := (55296 <=? u) && (u <=? 56319).
Definition is_low_surrogate (u : Z) : bool := (56320 <=? u) && (u <=? 57343).

(** A high surrogate followed by a low one is one code point. *)
Fixpoint assemble (ps : list piece) : string :=
  match ps with
  | [] => ""
  | Raw c :: rest => String c (assemble rest)
  | CodeUnit hi :: rest =>
      match rest with
      | CodeUnit lo :: rest' =>
          if is_high_surrogate hi && is_low_surrogate lo
          then utf8 (65536 + (hi - 55296) * 1024 + (lo - 56320)) ++ assemble rest'
          else utf8 hi ++ assemble rest
      | _ => utf8 hi ++ assemble rest
      end
  end.

(** The grammar of a JSON number, over the whole of [w]. *)
Definition json_number (w : string) : option number :=
  let (neg, r) :=
    match w with String "-"%char r => (true, r) | _ => (false, w) end in
  let (int_part, r1) := Text.span_digits r in
  let int_ok :=
    match int_part with
    | EmptyString => false
    | String "0"%char (String _ _) => false
    | _ => true
    end in
  let fraction :=
    match r1 with
    | String "."%char r' =>
        let (fp, r2) := Text.span_digits r' in
        if Text.is_empty fp then None else Some (fp, r2)
    | _ => Some (EmptyString, r1)
    end in
  match fraction with
  | Some (frac_part, r2) =>
      let exponent :=
        match r2 with
        | EmptyString => Some 0
        | String c r3 =>
            if Ascii.eqb c "e" || Ascii.eqb c "E" then
              let (eneg, r4) := read_sign r3 in
              let (ds, r5) := Text.span_digits r4 in
              if Text.is_empty ds || negb (Text.is_empty r5) then None
              else Some (if eneg then - Text.digits_value 0 ds
                         else Text.digits_value 0 ds)
            else None
        end in
      match exponent with
      | Some e =>
          if int_ok
          then Some (of_decimal neg (Text.digits_value 0 (int_part ++ frac_part))
                       (e - Text.len frac_part))
          else None
      | None => None
      end
  | None => None
  end.

(** A run of letters, digits, signs and points is a literal name or a
    number. *)
Definition word_token (w : string) : option token :=
  if String.eqb w "null" then Some (TAtom VNull)
  else if String.eqb w "true" then Some (TAtom (VBoolean true))
  else if String.eqb w "false" then Some (TAtom (VBoolean false))
  else option_map (fun n => TAtom (VNumber n)) (json_number w).

Definition is_word_char (c : ascii) : bool :=
  Text.is_digit c || Text.is_lower c || Text.is_upper c
  || Ascii.eqb c "-" || Ascii.eqb c "+" || Ascii.eqb c ".".

Definition is_json_space (c : ascii) : bool :=
  let n := Text.code c in (n =? 32) || (n =? 9) || (n =? 10) || (n =? 13).

Definition punctuation (c : ascii) : option token :=
  match Text.code c with
  | 123 => Some TLBrace
  | 125 => Some TRBrace
  | 91 => Some TLBracket
  | 93 => Some TRBracket
  | 58 => Some TColon
  | 44 => Some TComma
  | _ => None
  end.

Definition hex_value (c : ascii) : option Z :=
  if Text.is_digit c then Some (Text.code c - 48)
  else if Text.between 97 102 c then Some (Text.code c - 87)
  else if Text.between 65 70 c then Some (Text.code c - 55)
  else None.

(** The character an escape letter stands for. *)
Definition escaped (c : ascii) : option ascii :=
  match Text.code c with
  | 34 | 92 | 47 => Some c
  | 98 => Some (Text.chr 8)
  | 102 => Some (Text.chr 12)
  | 110 => Some (Text.chr 10)
  | 114 => Some (Text.chr 13)
  | 116 => Some (Text.chr 9)
  | _ => None
  end.

Inductive lexing : Type :=
| Between
| InWord (w : list ascii)
| InString (ps : list piece)
| InEscape (ps : list piece)
| InUnicode (ps : list piece) (read : Z) (acc : Z).

(** Leaving [Between] on character [c]: the next state and a token, if [c]
    is one. *)
Definition start (c : ascii) : option (lexing * list token) :=
  if is_json_space c then Some (Between, [])
  else if Text.code c =? 34 then Some (InString [], [])
  else
    match punctuation c with
    | Some t => Some (Between, [t])
    | None => if is_word_char c then Some (InWord [c], []) else None
    end.

Definition word_of (w : list ascii) : option token :=
  word_token (string_of_list_ascii (List.rev w)).

(** [out] holds the tokens read so far, the last one first. *)
Fixpoint lex (st : lexing) (out : list token) (s : string)
  : option (list token) :=
  match s with
  | EmptyString =>
      match st with
      | Between => Some (List.rev out)
      | InWord w => option_map (fun t => List.rev (t :: out)) (word_of w)
      | _ => None
      end
  | String c r =>
      match st with
      | Between =>
          match start c with
          | Some (st', ts) => lex st' (ts ++ out) r
          | None => None
          end
      | InWord w =>
          if is_word_char c then lex (InWord (c :: w)) out r
          else
            match word_of w, start c with
            | Some t, Some (st', ts) => lex st' (ts ++ t :: out) r
            | _, _ => None
            end
      | InString ps =>
          if Text.code c =? 34
          then lex Between (TString (assemble (List.rev ps)) :: out) r
          else if Text.code c =? 92 then lex (InEscape ps) out r
          else if Text.code c <? 32 then None
          else lex (InString (Raw c :: ps)) out r
      | InEscape ps =>
          if Text.code c =? 117 then lex (InUnicode ps 0 0) out r
          else
            match escaped c with
            | Some e => lex (InString (Raw e :: ps)) out r
            | None => None
            end
      | InUnicode ps read acc =>
          match hex_value c with
          | Some h =>
              if read =? 3
              then lex (InString (CodeUnit (16 * acc + h) :: ps)) out r
              else lex (InUnicode ps (read + 1) (16 * acc + h)) out r
          | None => None
          end
      end
  end.

(** A container that is still open: an array with the elements read so far
    (last first), or an object with its members and the name whose value is
    being read. *)
Inductive frame : Type :=
| InArray (elements : list value)
| InObject (members : list (string * value)) (name : string).

Inductive parsing : Type :=
| NeedValue (stack : list frame)
| ArrayOpened (stack : list frame)
| ArrayNext (elements : list value) (stack : list frame)
| ObjectOpened (stack : list frame)
| NeedName (members : list (string * value)) (stack : list frame)
| NeedColon (members : list (string * value)) (name : string)
    (stack : list frame)
| ObjectNext (members : list (string * value)) (stack : list frame)
| Finished (v : value).

(** A value is complete: it goes into the innermost open container. *)
Definition complete (v : value) (stack : list frame) : parsing :=
  match stack with
  | [] => Finished v
  | InArray acc :: rest => ArrayNext (v :: acc) rest
  | InObject ms k :: rest => ObjectNext (assign k v ms) rest
  end.

Definition begin_value (t : token) (stack : list frame) : option parsing :=
  match t with
  | TAtom v => Some (complete v stack)
  | TString s => Some (complete (VString s) stack)
  | TLBracket => Some (ArrayOpened stack)
  | TLBrace => Some (ObjectOpened stack)
  | _ => None
  end.

Definition step (st : parsing) (t : token) : option parsing :=
  match st, t with
  | NeedValue stack, _ => begin_value t stack
  | ArrayOpened stack, TRBracket => Some (complete (VArray []) stack)
  | ArrayOpened stack, _ => begin_value t (InArray [] :: stack)
  | ArrayNext acc stack, TComma => Some (NeedValue (InArray acc :: stack))
  | ArrayNext acc stack, TRBracket =>
      Some (complete (VArray (List.rev acc)) stack)
  | ObjectOpened stack, TRBrace => Some (complete (VObject []) stack)
  | ObjectOpened stack, TString k => Some (NeedColon [] k stack)
  | NeedName ms stack, TString k => Some (NeedColon ms k stack)
  | NeedColon ms k stack, TColon => Some (NeedValue (InObject ms k :: stack))
  | ObjectNext ms stack, TComma => Some (NeedName ms stack)
  | ObjectNext ms stack, TRBrace => Some (complete (VObject ms) stack)
  | _, _ => None
  end.

Fixpoint run (st : parsing) (ts : list token) : option value :=
  match ts with
  | [] => match st with Finished v => Some v | _ => None end
  | t :: rest =>
      match step st t with
      | Some st' => run st' rest
      | None => None
      end
  end.

(** [JSON.parse(text)]: [None] stands for the SyntaxError it throws. *)
Definition JSON_parse (text : string) : option value :=
  match lex Between [] text with
  | Some ts => run (NeedValue []) ts
  | None => None
  end.

End Js.

(* ================================================================== *)
(** * The PayPal SDK, as far as the handler uses it *)

Module Sdk.

Import Js.

(** [paypal.core.LiveEnvironment] and [paypal.core.SandboxEnvironment]. *)
Inductive environment : Type :=
| LiveEnvironment (clientId clientSecret : value)
| SandboxEnvironment (clientId clientSecret : value).

(** [paypal.core.PayPalHttpClient]. *)
Record PayPalHttpClient : Type := { client_environment : environment }.

Inductive endpoint : Type :=
| OrdersCreate
| OrdersCapture (orderId : value).

(** A request object: what it was constructed as, and what [prefer] and
    [requestBody] stored in it.  The classes of the SDK are not part of
    [src/main.js]: a constructor keeps its arguments and returns, and what
    the SDK does with a request is the answer of [execute]. *)
Record request : Type := {
  request_endpoint : endpoint;
  request_prefer : option string;
  request_body : value
}.

(** [new paypal.orders.OrdersCreateRequest()]. *)
Definition OrdersCreateRequest : request :=
  {| request_endpoint := OrdersCreate;
     request_prefer := None;
     request_body := VNull |}.

(** [new paypal.orders.OrdersCaptureRequest(orderId)]. *)
Definition OrdersCaptureRequest (orderId : value) : request :=
  {| request_endpoint := OrdersCapture orderId;
     request_prefer := None;
     request_body := VNull |}.

Definition prefer (r : request) (p : string) : request :=
  {| request_endpoint := request_endpoint r;
     request_prefer := Some p;
     request_body := request_body r |}.

Definition requestBody (r : request) (b : value) : request :=
  {| request_endpoint := request_endpoint r;
     request_prefer := request_prefer r;
     request_body := b |}.

End Sdk.

(* ================================================================== *)
(** * Running the handler: exceptions and the trace of effects *)

Module Run.

Import Js Sdk.

(** An Error object, by the three properties the [catch] block reads. *)
Record error : Type := {
  statusCode : value;
  message : value;
  stack : value
}.

(** How the promise of [paypalClient.execute] settles. *)
Inductive outcome : Type :=
| Resolved (response : value)
| Rejected (reason : error).

(** What surrounds one invocation: [process.env], the PayPal service behind
    [execute], the text the engine stores in the [stack] of an error it
    creates, given the error's headline, and the room the call stack has for
    nested calls of [Array.prototype.join] when the handler converts a value
    to a string. *)
Record host : Type := {
  process_env : string -> option string;
  execute : PayPalHttpClient -> request -> outcome;
  stack_of : string -> string;
  stack_room : nat
}.

(** [process.env.NAME]: a string, or [undefined] when unset. *)
Definition env (h : host) (name : string) : value :=
  match process_env h name with
  | Some s => VString s
  | None => VUndefined
  end.

(** What an invocation does besides answering. *)
Inductive event : Type :=
| Executed (client : PayPalHttpClient) (r : request)
| Logged (label : string) (e : error).

Inductive completion (A : Type) : Type :=
| Normal (a : A)
| Thrown (e : error).

Arguments Normal {A} a.
Arguments Thrown {A} e.

(** A computation extends the trace and completes normally or throws. *)
Definition Js (A : Type) : Type := list event -> list event * completion A.

Definition ret {A : Type} (a : A) : Js A := fun log => (log, Normal a).

Definition throw {A : Type} (e : error) : Js A := fun log => (log, Thrown e).

Definition bind {A B : Type} (c : Js A) (k : A -> Js B) : Js B :=
  fun log =>
    match c log with
    | (log', Normal a) => k a log'
    | (log', Thrown e) => (log', Thrown e)
    end.

Definition emit (ev : event) : Js unit :=
  fun log => ((log ++ [ev])%list, Normal tt).

Declare Scope js_scope.
Delimit Scope js_scope with js.

Notation "x <- c ;; k" := (bind c (fun x => k))
  (at level 61, c at next level, right associativity) : js_scope.

Local Open Scope js_scope.

(** [new Error(text)]. *)
Definition Error (h : host) (text : string) : error :=
  {| statusCode := VUndefined;
     message := VString text;
     stack := VString (stack_of h ("Error: " ++ text)) |}.

(** The TypeError the engine throws. *)
Definition TypeError (h : host) (text : string) : error :=
  {| statusCode := VUndefined;
     message := VString text;
     stack := VString (stack_of h ("TypeError: " ++ text)) |}.

(** The RangeError the engine throws. *)
Definition RangeError (h : host) (text : string) : error :=
  {| statusCode := VUndefined;
     message := VString text;
     stack := VString (stack_of h ("RangeError: " ++ text)) |}.

(** The exception of a conversion that does not return. *)
Definition conversion_error {A : Type} (h : host) (c : conversion A)
  : option error :=
  match c with
  | Converted _ => None
  | NotPrimitive =>
      Some (TypeError h "Cannot convert object to primitive value")
  | StackExceeded =>
      Some (RangeError h "Maximum call stack size exceeded")
  end.

(** A conversion as a step of the handler. *)
Definition converted {A : Type} (h : host) (c : conversion A) : Js A :=
  match c with
  | Converted a => ret a
  | NotPrimitive =>
      throw (TypeError h "Cannot convert object to primitive value")
  | StackExceeded =>
      throw (RangeError h "Maximum call stack size exceeded")
  end.

(** How the engine names [null] and [undefined] in a message. *)
Definition nullish_name (v : value) : string :=
  match v with
  | VNull => "null"
  | _ => "undefined"
  end.

(** [v.k]: reading a property of [null] or [undefined] throws. *)
Definition get (h : host) (v : value) (k : string) : Js value :=
  match v with
  | VUndefined | VNull =>
      throw (TypeError h ("Cannot read properties of " ++ nullish_name v
                          ++ " (reading '" ++ k ++ "')"))
  | _ => ret (property v k)
  end.

(** [v?.k]. *)
Definition get_optional (v : value) (k : string) : value :=
  match v with
  | VUndefined | VNull => VUndefined
  | _ => property v k
  end.

(** Array.prototype.find: the first element the callback accepts, else
    [undefined]; an exception of the callback goes through. *)
Fixpoint Array_find (callback : value -> Js bool) (l : list value)
  : Js value :=
  match l with
  | [] => ret VUndefined
  | x :: rest =>
      found <- callback x ;;
      if found then ret x else Array_find callback rest
  end.

(** [v.find(callback)] where the expression [v] reads [text] in the source:
    only an array has the method. *)
Definition find (h : host) (text : string) (v : value)
  (callback : value -> Js bool) : Js value :=
  match v with
  | VUndefined | VNull =>
      throw (TypeError h ("Cannot read properties of " ++ nullish_name v
                          ++ " (reading 'find')"))
  | VArray l => Array_find callback l
  | _ => throw (TypeError h (text ++ ".find is not a function"))
  end.

(** [v.k1.k2]. *)
Definition get2 (h : host) (v : value) (k1 k2 : string) : Js value :=
  x <- get h v k1 ;; get h x k2.

(** [await client.execute(r)]. *)
Definition await_execute (h : host) (client : PayPalHttpClient) (r : request)
  : Js value :=
  _ <- emit (Executed client r) ;;
  match execute h client r with
  | Resolved response => ret response
  | Rejected reason => throw reason
  end.

End Run.

(* ================================================================== *)
(** * [src/main.js] *)

Module Main.

Import Number Js Sdk Run.

Local Open Scope js_scope.

(** [context.res.json(object)]: the object is the answer. *)
Definition json (object : value) : Js value := ret object.

(** The object literal [{status: 'error', code: c, message: m}]. *)
Definition error_response (c : Z) (m : string) : value :=
  VObject [("status", VString "error");
           ("code", VNumber (of_Z c));
           ("message", VString m)].

(** [createPayPalClient], lines 3-16. *)
Definition createPayPalClient (h : host) : Js PayPalHttpClient :=
  let clientId := env h "PAYPAL_CLIENT_ID" in
  let clientSecret := env h "PAYPAL_SECRET" in
  if negb (truthy clientId) || negb (truthy clientSecret)
  then throw (Error h "PayPal credentials not configured")
  else
    let environment :=
      if is_literal (env h "PAYPAL_ENVIRONMENT") "production"
      then LiveEnvironment clientId clientSecret
      else SandboxEnvironment clientId clientSecret in
    ret {| client_environment := environment |}.

(** Lines 30-41: a string body goes through [JSON.parse], whose exception
    the inner [catch] turns into [None]; any other body is the payload. *)
Definition parse_payload (body : value) : option value :=
  match body with
  | VString text => JSON_parse text
  | _ => Some body
  end.

(** Line 44: [!payload.action || !payload.data]. *)
Definition missing_parameter (h : host) (payload : value) : Js bool :=
  action <- get h payload "action" ;;
  if negb (truthy action) then ret true
  else
    data <- get h payload "data" ;;
    ret (negb (truthy data)).

(** The request body of lines 68-82. *)
Definition order_body (currency_code value : value) : Js.value :=
  VObject
    [("intent", VString "CAPTURE");
     ("application_context",
      VObject [("shipping_preference", VString "NO_SHIPPING");
               ("user_action", VString "PAY_NOW");
               ("return_url", VString "digitalevdoctor://payment-success");
               ("cancel_url", VString "digitalevdoctor://payment-canceled")]);
     ("purchase_units",
      VArray [VObject [("amount",
                        VObject [("currency_code", currency_code);
                                 ("value", value)])]])].

(** The callback of line 86, [link => link.rel === 'approve']. *)
Definition is_approval_link (h : host) (link : value) : Js bool :=
  rel <- get h link "rel" ;;
  ret (is_literal rel "approve").

(** [case 'createOrder'], lines 55-101. *)
Definition createOrder (h : host) (paypalClient : PayPalHttpClient)
  (payload : value) : Js value :=
  raw <- get2 h payload "data" "amount" ;;
  amount <- converted h (parseFloat (stack_room h) raw) ;;
  if isNaN amount || le amount zero
  then json (error_response 400 "Invalid amount specified")
  else
    let createRequest := OrdersCreateRequest in
    let createRequest := prefer createRequest "return=representation" in
    currency <- get2 h payload "data" "currency" ;;
    let createRequest :=
      requestBody createRequest
        (order_body (or_else currency (VString "EUR"))
                    (VString (toFixed 2 amount))) in
    createResponse <- await_execute h paypalClient createRequest ;;
    links <- get2 h createResponse "result" "links" ;;
    approvalLink <-
      find h "createResponse.result.links" links (is_approval_link h) ;;
    if negb (truthy (get_optional approvalLink "href"))
    then throw (Error h "Missing approval URL in PayPal response")
    else
      orderId <- get2 h createResponse "result" "id" ;;
      approvalUrl <- get h approvalLink "href" ;;
      status <- get2 h createResponse "result" "status" ;;
      json (VObject [("status", VString "success");
                     ("data", VObject [("orderId", orderId);
                                       ("approvalUrl", approvalUrl);
                                       ("status", status)])]).

(** [case 'captureOrder'], lines 103-133. *)
Definition captureOrder (h : host) (paypalClient : PayPalHttpClient)
  (payload : value) : Js value :=
  orderId <- get2 h payload "data" "orderId" ;;
  invalid <-
    (if negb (truthy orderId) then ret true
     else
       orderId <- get2 h payload "data" "orderId" ;;
       matches <- converted h (test_order_id (stack_room h) orderId) ;;
       ret (negb matches)) ;;
  if invalid : bool
  then json (error_response 400 "Invalid order ID")
  else
    orderId <- get2 h payload "data" "orderId" ;;
    let captureRequest := OrdersCaptureRequest orderId in
    let captureRequest := requestBody captureRequest (VObject []) in
    captureResponse <- await_execute h paypalClient captureRequest ;;
    if negb (truthy (get_optional (get_optional captureResponse "result") "id"))
    then throw (Error h "Incomplete capture response from PayPal")
    else
      captureId <- get2 h captureResponse "result" "id" ;;
      status <- get2 h captureResponse "result" "status" ;;
      payer <- get2 h captureResponse "result" "payer" ;;
      create_time <- get2 h captureResponse "result" "create_time" ;;
      purchase_units <- get2 h captureResponse "result" "purchase_units" ;;
      json (VObject
              [("status", VString "success");
               ("data",
                VObject [("captureId", captureId);
                         ("status", status);
                         ("details",
                          VObject [("payer", payer);
                                   ("create_time", create_time);
                                   ("purchase_units", purchase_units)])])]).

(** The [try] block, lines 19-141; [body] is [context.req.body]. *)
Definition try_block (h : host) (body : value) : Js value :=
  if negb (truthy body)
  then json (error_response 400 "Request body is required")
  else
    match parse_payload body with
    | None => json (error_response 400 "Invalid JSON format")
    | Some payload =>
        missing <- missing_parameter h payload ;;
        if missing
        then json (error_response 400 "Missing action or data parameter")
        else
          paypalClient <- createPayPalClient h ;;
          action <- get h payload "action" ;;
          if is_literal action "createOrder"
          then createOrder h paypalClient payload
          else if is_literal action "captureOrder"
          then captureOrder h paypalClient payload
          else json (error_response 400 "Unsupported action")
    end.

(** The object of lines 145-150; the spread adds [debug] unless
    [NODE_ENV] is ['production']. *)
Definition catch_response (h : host) (e : error) : value :=
  VObject
    ([("status", VString "error");
      ("code", or_else (statusCode e) (VNumber (of_Z 500)));
      ("message", or_else (message e) (VString "Internal server error"))]
     ++ (if negb (is_literal (env h "NODE_ENV") "production")
         then [("debug", stack e)]
         else []))%list.

(** [module.exports]: the trace of the invocation and its answer. *)
Definition handler (h : host) (body : value) : list event * value :=
  match try_block h body [] with
  | (log, Normal response) => (log, response)
  | (log, Thrown e) =>
      ((log ++ [Logged "Server Error:" e])%list, catch_response h e)
  end.

Definition response (h : host) (body : value) : value := snd (handler h body).

Definition trace (h : host) (body : value) : list event := fst (handler h body).

End Main.

(* ================================================================== *)
(** * Vocabulary of the properties *)

Module Spec.

Import Number Js Sdk Run Main.

(** [PAYPAL_CLIENT_ID] and [PAYPAL_SECRET] are both set and not empty. *)
Definition configured (h : host) : bool :=
  truthy (env h "PAYPAL_CLIENT_ID") && truthy (env h "PAYPAL_SECRET").

(** [NODE_ENV] is ['production']. *)
Definition production (h : host) : bool :=
  is_literal (env h "NODE_ENV") "production".

(** The client [createPayPalClient] builds from the environment. *)
Definition client (h : host) : PayPalHttpClient :=
  {| client_environment :=
       if is_literal (env h "PAYPAL_ENVIRONMENT") "production"
       then LiveEnvironment (env h "PAYPAL_CLIENT_ID") (env h "PAYPAL_SECRET")
       else SandboxEnvironment (env h "PAYPAL_CLIENT_ID")
                               (env h "PAYPAL_SECRET") |}.

(** The exception the [try] block ends with, if it ends with one. *)
Definition thrown (h : host) (body : value) : option error :=
  match snd (try_block h body []) with
  | Thrown e => Some e
  | Normal _ => None
  end.

(** The requests handed to [execute] during a trace, in order. *)
Fixpoint sdk_calls (log : list event) : list request :=
  match log with
  | [] => []
  | Executed _ r :: rest => r :: sdk_calls rest
  | Logged _ _ :: rest => sdk_calls rest
  end.

Definition has_field (v : value) (k : string) : bool :=
  match v with
  | VObject ps => has_key k ps
  | _ => false
  end.

(** Every property name of the object [v] is one of [allowed]. *)
Definition fields_within (allowed : list string) (v : value) : bool :=
  match v with
  | VObject ps =>
      forallb (fun p => existsb (String.eqb (fst p)) allowed) ps
  | _ => false
  end.

(** The envelope: [status] is there, every field is one of [allowed], an
    error carries [code] and [message], a success carries [data]. *)
Definition envelope (allowed : list string) (r : value) : bool :=
  has_field r "status"
  && fields_within allowed r
  && (if is_literal (property r "status") "error"
      then has_field r "code" && has_field r "message"
      else is_literal (property r "status") "success" && has_field r "data").

(** The request lines 66-82 build for a currency and an amount. *)
Definition order_request (currency : value) (amount : number) : request :=
  requestBody (prefer OrdersCreateRequest "return=representation")
    (order_body (or_else currency (VString "EUR"))
                (VString (toFixed 2 amount))).

(** The request lines 112-113 build for an order id. *)
Definition capture_request (orderId : value) : request :=
  requestBody (OrdersCaptureRequest orderId) (VObject []).

(** The two shapes of an answer the [try] block returns. *)
Inductive answer : value -> Prop :=
| answer_error (c : Z) (m : string) : answer (error_response c m)
| answer_success (d : value) :
    answer (VObject [("status", VString "success"); ("data", d)]).

(** A computation that adds nothing to the trace. *)
Definition silent {A : Type} (c : Js A) : Prop :=
  forall log, fst (c log) = log.

(** The JSON values: everything but [undefined]. *)
Definition defined (v : value) : Prop := v <> VUndefined.

(** A token that carries a JSON value, and a parser state that holds one. *)
Definition token_defined (t : token) : Prop :=
  match t with
  | TAtom v => defined v
  | _ => True
  end.

Definition parsing_defined (st : parsing) : Prop :=
  match st with
  | Finished v => defined v
  | _ => True
  end.

(** The object of the [catch] block when the error has code [c] and message
    [m], with [debug] as the environment has it. *)
Definition failure (h : host) (c : Z) (m trace_text : string) : value :=
  VObject
    ([("status", VString "error");
      ("code", VNumber (of_Z c));
      ("message", VString m)]
     ++ (if production h then [] else [("debug", VString trace_text)]))%list.

(** The request the checks of lines 21-110 let through to the SDK, if any:
    the payload parses, [action] and [data] are truthy, the credentials are
    set, the amount or the order id is converted to a string, and what the
    string holds passes its test. *)
Definition admitted (h : host) (body : value) : option request :=
  match parse_payload body with
  | Some payload =>
      let action := property payload "action" in
      let data := property payload "data" in
      if truthy action && truthy data && configured h then
        if is_literal action "createOrder" then
          match parseFloat (stack_room h) (property data "amount") with
          | Converted amount =>
              if isNaN amount || le amount zero then None
              else Some (order_request (property data "currency") amount)
          | _ => None
          end
        else if is_literal action "captureOrder" then
          match test_order_id (stack_room h) (property data "orderId") with
          | Converted true => Some (capture_request (property data "orderId"))
          | _ => None
          end
        else None
      else None
  | None => None
  end.

(** The messages of the six answers with code 400. *)
Definition validation_messages : list string :=
  ["Request body is required";
   "Invalid JSON format";
   "Missing action or data parameter";
   "Invalid amount specified";
   "Invalid order ID";
   "Unsupported action"].

(** Two outcomes that differ at most in the stack of the error thrown. *)
Definition alike {A : Type} (r1 r2 : list event * completion A) : Prop :=
  fst r1 = fst r2
  /\ match snd r1, snd r2 with
     | Normal a, Normal b => a = b
     | Thrown e1, Thrown e2 =>
         statusCode e1 = statusCode e2 /\ message e1 = message e2
     | _, _ => False
     end.

(** Two computations with alike outcomes on every trace. *)
Definition similar {A : Type} (c1 c2 : Js A) : Prop :=
  forall log, alike (c1 log) (c2 log).

(** Two hosts with the same environment, the same PayPal service and the
    same room on the call stack; only the stack texts of the engine may
    differ. *)
Definition same_service (h1 h2 : host) : Prop :=
  (forall name, process_env h1 name = process_env h2 name)
  /\ (forall c r, execute h1 c r = execute h2 c r)
  /\ stack_room h1 = stack_room h2.

(** Digits, a point, two digits. *)
Definition two_decimals (s : string) : bool :=
  let (int_part, rest) := Text.span_digits s in
  negb (Text.is_empty int_part)
  && match rest with
     | String "."%char (String a (String b EmptyString)) =>
         Text.is_digit a && Text.is_digit b
     | _ => false
     end.

(** The purchase unit of a request body: [purchase_units[0].amount]. *)
Definition purchase_amount (r : request) : value :=
  match property (request_body r) "purchase_units" with
  | VArray (unit :: _) => property unit "amount"
  | _ => VUndefined
  end.

(** [purchase_units] holds exactly one unit. *)
Definition single_unit (r : request) : bool :=
  match property (request_body r) "purchase_units" with
  | VArray [_] => true
  | _ => false
  end.

End Spec.

(* ================================================================== *)
(** * Sample hosts, requests and responses *)

Module Sample.

Import Number Js Sdk Run Main.

Definition variables (vars : list (string * string)) (name : string)
  : option string :=
  match List.find (fun p => String.eqb (fst p) name) vars with
  | Some p => Some (snd p)
  | None => None
  end.

Definition frames (headline : string) : string :=
  headline ++ "
    at module.exports (/usr/local/server/src/function/src/main.js)".

Definition approval_url : string :=
  "https://www.sandbox.paypal.com/checkoutnow?token=5O190127TN364715T".

Definition self_link : value :=
  VObject
    [("href",
      VString
        "https://api.sandbox.paypal.com/v2/checkout/orders/5O190127TN364715T");
     ("rel", VString "self")].

Definition approve_link : value :=
  VObject [("href", VString approval_url); ("rel", VString "approve")].

(** What PayPal answers to a create request. *)
Definition created : value :=
  VObject
    [("result",
      VObject
        [("id", VString "5O190127TN364715T");
         ("status", VString "CREATED");
         ("links",
          VArray [self_link; approve_link])])].

(** The same answer without its [links]. *)
Definition created_without_links : value :=
  VObject
    [("result",
      VObject [("id", VString "5O190127TN364715T");
               ("status", VString "CREATED")])].

(** An error of the SDK whose message is empty. *)
Definition unauthorized : error :=
  {| statusCode := VNumber (of_Z 401);
     message := VString "";
     stack := VString "Error
    at IncomingMessage.<anonymous> (paypalhttp/lib/paypalhttp/http_client.js)" |}.

(** A request that never got an HTTP status: the code is zero. *)
Definition aborted : error :=
  {| statusCode := VNumber zero;
     message := VString "socket hang up";
     stack := VString "Error: socket hang up
    at TLSSocket.socketOnEnd (node:_http_client)" |}.

(** An error of the SDK with a status code and a message. *)
Definition unprocessable : error :=
  {| statusCode := VNumber (of_Z 422);
     message := VString "UNPROCESSABLE_ENTITY";
     stack := VString "Error: UNPROCESSABLE_ENTITY
    at IncomingMessage.<anonymous> (paypalhttp/lib/paypalhttp/http_client.js)" |}.

(** The nested calls of [join] the stack of the sample hosts holds. *)
Definition room : nat := 1000.

Definition credentials : list (string * string) :=
  [("PAYPAL_CLIENT_ID", "AZDxjDScFpQtjWTOUtWKbyN"); ("PAYPAL_SECRET", "EGnHDxD_qRPdaLdZz8iCr8N")].

(** Credentials set, [NODE_ENV] unset, PayPal answers [created]. *)
Definition development : host :=
  {| process_env := variables credentials;
     execute := fun _ _ => Resolved created;
     stack_of := frames;
     stack_room := room |}.

(** Credentials set, [NODE_ENV=production], PayPal answers [created]. *)
Definition live : host :=
  {| process_env :=
       variables (("NODE_ENV", "production")
                  :: ("PAYPAL_ENVIRONMENT", "production") :: credentials);
     execute := fun _ _ => Resolved created;
     stack_of := frames;
     stack_room := room |}.

(** [live] on an engine that stores other stack texts. *)
Definition live_elsewhere : host :=
  {| process_env := process_env live;
     execute := execute live;
     stack_of := fun headline => headline ++ "
    at async Server.handle (file:///opt/runtime/server.js)";
     stack_room := stack_room live |}.

(** No variable is set. *)
Definition unconfigured : host :=
  {| process_env := variables [];
     execute := fun _ _ => Resolved created;
     stack_of := frames;
     stack_room := room |}.

(** [NODE_ENV=production] and nothing else. *)
Definition unconfigured_production : host :=
  {| process_env := variables [("NODE_ENV", "production")];
     execute := fun _ _ => Resolved created;
     stack_of := frames;
     stack_room := room |}.

(** Credentials set, [NODE_ENV=production]; PayPal answers [response]. *)
Definition answering (response : value) : host :=
  {| process_env := variables (("NODE_ENV", "production") :: credentials);
     execute := fun _ _ => Resolved response;
     stack_of := frames;
     stack_room := room |}.

(** PayPal answers without [links]. *)
Definition linkless : host := answering created_without_links.

(** An answer whose only link is [self]. *)
Definition created_without_approval : value :=
  VObject
    [("result",
      VObject
        [("id", VString "5O190127TN364715T");
         ("status", VString "CREATED");
         ("links",
          VArray [self_link])])].

(** What PayPal answers to a capture request. *)
Definition captured : value :=
  VObject
    [("result",
      VObject
        [("id", VString "5O190127TN364715T");
         ("status", VString "COMPLETED");
         ("payer", VObject [("payer_id", VString "QYR5Z8XDVJNXQ")]);
         ("create_time", VString "2024-03-01T10:15:00Z");
         ("purchase_units", VArray [])])].

(** Credentials set; the SDK rejects with [reason]. *)
Definition rejecting (reason : error) : host :=
  {| process_env := variables (("NODE_ENV", "production") :: credentials);
     execute := fun _ _ => Rejected reason;
     stack_of := frames;
     stack_room := room |}.

(** A payload [{action, data: {name: v}}]. *)
Definition request_of (action name : string) (v : value) : value :=
  VObject [("action", VString action); ("data", VObject [(name, v)])].

(** What [order_text] denotes. *)
Definition order_payload : value :=
  VObject [("action", VString "createOrder");
           ("data", VObject [("amount", VString "12.50");
                             ("currency", VString "USD")])].

Definition order_for (amount : string) : value :=
  request_of "createOrder" "amount" (VString amount).

Definition capture_of (orderId : string) : value :=
  request_of "captureOrder" "orderId" (VString orderId).

(** What the JSON text of an object with the one key [toString] and the
    value 0 denotes: an object that cannot be converted to a string. *)
Definition unconvertible : value := VObject [("toString", VNumber zero)].

(** [v] inside [depth] arrays of one element. *)
Fixpoint nested (depth : nat) (v : value) : value :=
  match depth with
  | O => v
  | S d => VArray [nested d v]
  end.

(** A payload whose [data] is [false]. *)
Definition without_data (action : string) : value :=
  VObject [("action", VString action); ("data", VBoolean false)].

(** The text of a createOrder request for 12.50 USD, as a client sends it. *)
Definition order_text : string :=
  "{" ++ Text.quoted "action" ++ ":" ++ Text.quoted "createOrder" ++ ","
  ++ Text.quoted "data" ++ ":{" ++ Text.quoted "amount" ++ ":"
  ++ Text.quoted "12.50" ++ "," ++ Text.quoted "currency" ++ ":"
  ++ Text.quoted "USD" ++ "}}".

End Sample.

(* ================================================================== *)
(** * The run time on known values *)

Module Checks.

Import Number Js.

(** 0.1 is the double 0x1.999999999999ap-4, and is written back as it was
    read. *)
Example tenth :
  parseFloat_text "0.1" = S754_finite false 7205759403792794 (-56)
  /\ Number.toString (parseFloat_text "0.1") = "0.1".
Proof. vm_compute. split; reflexivity. Qed.

(** 1.005 lies below the decimal it is written as: two decimals round it
    down. *)
Example toFixed_rounds_the_double :
  toFixed 2 (parseFloat_text "1.005") = "1.00"
  /\ toFixed 2 (parseFloat_text "12.5") = "12.50"
  /\ toFixed 2 (parseFloat_text "0.005") = "0.01".
Proof. vm_compute. repeat split. Qed.

(** Integers beyond 2^53, and the switch to exponent notation at 10^21. *)
Example toString_large :
  Number.toString (of_Z 12345678901234567) = "12345678901234568"
  /\ Number.toString (of_Z (2 ^ 60)) = "1152921504606847000"
  /\ Number.toString (of_Z (10 ^ 20)) = "100000000000000000000"
  /\ Number.toString (of_Z (10 ^ 21)) = "1e+21"
  /\ Number.toString (of_decimal false 15 (-8)) = "1.5e-7".
Proof. vm_compute. repeat split. Qed.

(** [parseFloat] reads the longest numeric prefix after the white space. *)
Example parseFloat_prefix :
  parseFloat_text "  12.5abc" = parseFloat_text "12.5"
  /\ parseFloat_text "5.e3" = of_Z 5000
  /\ parseFloat_text "0x10" = zero
  /\ parseFloat_text "1e-400" = zero
  /\ parseFloat_text "1e400" = Infinity
  /\ parseFloat_text "." = NaN
  /\ parseFloat_text "" = NaN
  /\ parseFloat 0 VUndefined = Converted NaN
  /\ parseFloat 1 (VArray [VString "7"]) = Converted (of_Z 7).
Proof. vm_compute. repeat split. Qed.

(** The conversion of an array joins its elements; it throws with the first
    element that cannot be converted, and when the nesting exceeds the room
    of the stack. *)
Example ToString_values :
  ToString 2 (VArray [VNumber (of_Z 1); VNull; VArray [VString "a"; VUndefined];
                      VObject [("valueOf", VNumber zero)]])
  = Converted "1,,a,,[object Object]"
  /\ ToString 0 Sample.unconvertible = NotPrimitive
  /\ ToString 1 (VArray [VNumber (of_Z 12); Sample.unconvertible])
     = NotPrimitive
  /\ ToString 1 (VArray [VArray []; Sample.unconvertible]) = StackExceeded
  /\ ToString 3 (Sample.nested 3 (VString "7")) = Converted "7"
  /\ ToString 2 (Sample.nested 3 (VString "7")) = StackExceeded
  /\ ToString Sample.room (Sample.nested (4 * 2000) (VString "7")) = StackExceeded.
Proof. vm_compute. repeat split. Qed.

Example JSON_parse_values :
  JSON_parse " [1, -0, 2.5e1, true, null] "
  = Some (VArray [VNumber (of_Z 1); VNumber (S754_zero true);
                  VNumber (of_Z 25); VBoolean true; VNull])
  /\ JSON_parse Sample.order_text = Some Sample.order_payload
  /\ JSON_parse "[1,]" = None
  /\ JSON_parse "01" = None
  /\ JSON_parse "{} {}" = None
  /\ JSON_parse "undefined" = None.
Proof. vm_compute. repeat split. Qed.

(** The regular expression wants seventeen characters; a number of
    seventeen digits is converted and passes. *)
Example order_id_pattern_values :
  order_id_pattern "5O190127TN364715T" = true
  /\ order_id_pattern "5O190127TN364715" = false
  /\ order_id_pattern "5O190127TN364715TX" = false
  /\ order_id_pattern "5o190127tn364715t" = false
  /\ test_order_id 0 (VNumber (of_Z 12345678901234567)) = Converted true
  /\ test_order_id 0 VUndefined = Converted false
  /\ test_order_id 1 (VArray [VString "5O190127TN364715T"]) = Converted true
  /\ test_order_id 0 Sample.unconvertible = NotPrimitive.
Proof. vm_compute. repeat split. Qed.

End Checks.

(* ================================================================== *)
(** * How the handler runs *)

Module Steps.

Import Number Js Sdk Run Main Spec.

Local Open Scope js_scope.

(** Pushes a returned value into the continuation. *)
Ltac step := change (bind (ret ?a) ?f) with (f a); cbv beta.

Lemma is_literal_eq v s : is_literal v s = true -> v = VString s.
Proof.
  destruct v; simpl; try discriminate.
  intros E. apply String.eqb_eq in E. now subst.
Qed.

Lemma is_literal_truthy v a c s :
  is_literal v (String a (String c s)) = true -> truthy v = true.
Proof. intros E. now rewrite (is_literal_eq _ _ E). Qed.

Lemma truthy_present v : truthy v = true -> nullish v = false.
Proof. destruct v; simpl; try discriminate; reflexivity. Qed.

Lemma property_truthy_object v k :
  truthy (property v k) = true -> exists ps, v = VObject ps.
Proof. destruct v; simpl; try discriminate. intros _. eauto. Qed.

Section Host.

Variable h : host.

Lemma converted_value {A : Type} (c : conversion A) a :
  c = Converted a -> converted h c = ret a.
Proof. now intros ->. Qed.

Lemma converted_error {A : Type} (c : conversion A) e :
  conversion_error h c = Some e -> converted h c = throw e.
Proof. destruct c; simpl; intros E; now inversion E. Qed.

(** A conversion returns or has its exception. *)
Lemma conversion_cases {A : Type} (c : conversion A) :
  (exists a, c = Converted a) \/ (exists e, conversion_error h c = Some e).
Proof. destruct c; simpl; eauto. Qed.

Lemma get_truthy v k : truthy v = true -> get h v k = ret (property v k).
Proof. destruct v; simpl; try discriminate; reflexivity. Qed.

Lemma get_present v k : nullish v = false -> get h v k = ret (property v k).
Proof. destruct v; simpl; try discriminate; reflexivity. Qed.

Lemma get2_present v k1 k2 :
  nullish v = false -> nullish (property v k1) = false ->
  get2 h v k1 k2 = ret (property (property v k1) k2).
Proof.
  intros Hv Hk. unfold get2. rewrite (get_present _ _ Hv). step.
  now rewrite (get_present _ _ Hk).
Qed.

Lemma get2_truthy v k1 k2 :
  truthy v = true -> truthy (property v k1) = true ->
  get2 h v k1 k2 = ret (property (property v k1) k2).
Proof.
  intros Hv Hk. unfold get2. rewrite (get_truthy _ _ Hv). step.
  now rewrite (get_truthy _ _ Hk).
Qed.

(** A payload with a truthy property is an object, and so was the body,
    unless the body was the text of one. *)
Lemma payload_truthy body payload k :
  parse_payload body = Some payload ->
  truthy (property payload k) = true ->
  truthy body = true /\ truthy payload = true.
Proof.
  intros Hp Hk. destruct (property_truthy_object _ _ Hk) as [ps ->].
  split; [|reflexivity].
  destruct body; simpl in Hp; try (inversion Hp; subst; easy).
  destruct s; [discriminate Hp | reflexivity].
Qed.

Lemma createPayPalClient_configured :
  configured h = true -> createPayPalClient h = ret (client h).
Proof.
  unfold configured, createPayPalClient. intros C.
  apply andb_true_iff in C. destruct C as [-> ->]. reflexivity.
Qed.

Lemma createPayPalClient_unconfigured :
  configured h = false ->
  createPayPalClient h = throw (Error h "PayPal credentials not configured").
Proof.
  unfold configured, createPayPalClient. intros C.
  apply andb_false_iff in C. destruct C as [-> | ->]; simpl.
  - reflexivity.
  - now rewrite orb_true_r.
Qed.

Lemma missing_parameter_present payload :
  truthy (property payload "action") = true ->
  truthy (property payload "data") = true ->
  missing_parameter h payload = ret false.
Proof.
  intros Ha Hd. destruct (property_truthy_object _ _ Ha) as [ps ->].
  unfold missing_parameter.
  rewrite !get_truthy by reflexivity. step. rewrite Ha. simpl negb. cbv iota.
  step. now rewrite Hd.
Qed.

Lemma missing_parameter_absent payload :
  nullish payload = false ->
  truthy (property payload "action") = false
  \/ truthy (property payload "data") = false ->
  missing_parameter h payload = ret true.
Proof.
  intros Ht Hm. unfold missing_parameter.
  rewrite !(get_present _ _ Ht). step.
  destruct (truthy (property payload "action")); simpl.
  - step. destruct Hm as [Hm | ->]; [discriminate Hm | reflexivity].
  - reflexivity.
Qed.

(** Past the checks of lines 21-50 the handler loads the credentials and
    dispatches on the action. *)
Lemma try_block_validated body payload :
  parse_payload body = Some payload ->
  truthy (property payload "action") = true ->
  truthy (property payload "data") = true ->
  try_block h body =
    (paypalClient <- createPayPalClient h ;;
     if is_literal (property payload "action") "createOrder"
     then createOrder h paypalClient payload
     else if is_literal (property payload "action") "captureOrder"
     then captureOrder h paypalClient payload
     else json (error_response 400 "Unsupported action")).
Proof.
  intros Hp Ha Hd.
  destruct (payload_truthy _ _ _ Hp Ha) as [Hb Ht].
  unfold try_block. rewrite Hb, Hp. simpl negb. cbv iota.
  rewrite (missing_parameter_present _ Ha Hd). step. cbv iota.
  now rewrite (get_truthy _ _ Ht).
Qed.

(** With the credentials missing, that is where it stops. *)
Lemma try_block_unconfigured body payload :
  parse_payload body = Some payload ->
  truthy (property payload "action") = true ->
  truthy (property payload "data") = true ->
  configured h = false ->
  try_block h body = throw (Error h "PayPal credentials not configured").
Proof.
  intros Hp Ha Hd Hc. rewrite (try_block_validated _ _ Hp Ha Hd).
  now rewrite (createPayPalClient_unconfigured Hc).
Qed.

Lemma try_block_configured body payload :
  parse_payload body = Some payload ->
  truthy (property payload "action") = true ->
  truthy (property payload "data") = true ->
  configured h = true ->
  try_block h body =
    (if is_literal (property payload "action") "createOrder"
     then createOrder h (client h) payload
     else if is_literal (property payload "action") "captureOrder"
     then captureOrder h (client h) payload
     else json (error_response 400 "Unsupported action")).
Proof.
  intros Hp Ha Hd Hc. rewrite (try_block_validated _ _ Hp Ha Hd).
  now rewrite (createPayPalClient_configured Hc).
Qed.

(** What the handler answers once the [try] block has thrown. *)
Lemma handler_thrown body log e :
  try_block h body [] = (log, Thrown e) ->
  handler h body = ((log ++ [Logged "Server Error:" e])%list, catch_response h e).
Proof. intros E. unfold handler. now rewrite E. Qed.

Lemma handler_normal body log r :
  try_block h body [] = (log, Normal r) -> handler h body = (log, r).
Proof. intros E. unfold handler. now rewrite E. Qed.

End Host.

End Steps.

(* ================================================================== *)
(** * Effects and answers of the branches *)

Module Effects.

Import Number Js Sdk Run Main Spec Steps.

Local Open Scope js_scope.

Lemma bind_normal {A B : Type} (c : Js A) (k : A -> Js B) log log' r :
  bind c k log = (log', Normal r) ->
  exists a l1, c log = (l1, Normal a) /\ k a l1 = (log', Normal r).
Proof.
  unfold bind. destruct (c log) as [l1 [a | e]]; intros H.
  - eauto.
  - discriminate H.
Qed.

Lemma silent_ret {A : Type} (a : A) : silent (ret a).
Proof. intros log. reflexivity. Qed.

Lemma silent_throw {A : Type} (e : error) : silent (@throw A e).
Proof. intros log. reflexivity. Qed.

Lemma silent_bind {A B : Type} (c : Js A) (k : A -> Js B) :
  silent c -> (forall a, silent (k a)) -> silent (bind c k).
Proof.
  intros Hc Hk log. unfold bind. specialize (Hc log).
  destruct (c log) as [l1 [a | e]]; simpl in Hc; subst l1.
  - apply Hk.
  - reflexivity.
Qed.

Lemma silent_get h v k : silent (get h v k).
Proof. destruct v; simpl; first [apply silent_ret | apply silent_throw]. Qed.

Lemma silent_get2 h v k1 k2 : silent (get2 h v k1 k2).
Proof. apply silent_bind; intros; apply silent_get. Qed.

Lemma silent_converted {A : Type} h (c : conversion A) :
  silent (converted h c).
Proof. destruct c; simpl; first [apply silent_ret | apply silent_throw]. Qed.

Lemma silent_Array_find callback l :
  (forall x, silent (callback x)) -> silent (Array_find callback l).
Proof.
  intros Hc. induction l as [| x rest IH]; simpl.
  - apply silent_ret.
  - apply silent_bind; [apply Hc |].
    intros [|]; [apply silent_ret | exact IH].
Qed.

Lemma silent_find h text v callback :
  (forall x, silent (callback x)) -> silent (find h text v callback).
Proof.
  intros Hc. destruct v; simpl;
    first [apply silent_throw | now apply silent_Array_find].
Qed.

Ltac silence :=
  repeat first
    [ apply silent_ret | apply silent_throw | apply silent_get
    | apply silent_get2 | apply silent_converted
    | apply silent_find; intros
    | progress unfold is_approval_link
    | apply silent_bind; [| intros]
    | match goal with |- silent (if ?b then _ else _) => destruct b end ].

(** [await_execute] adds the call, and nothing else. *)
Lemma await_execute_trace {B : Type} h c r (k : value -> Js B) log :
  (forall v, silent (k v)) ->
  fst (bind (await_execute h c r) k log) = (log ++ [Executed c r])%list.
Proof.
  intros Hk. unfold await_execute, bind, emit. simpl.
  destruct (execute h c r) as [v | e]; simpl.
  - apply Hk.
  - reflexivity.
Qed.

Lemma sdk_calls_app l1 l2 : sdk_calls (l1 ++ l2) = (sdk_calls l1 ++ sdk_calls l2)%list.
Proof.
  induction l1 as [| [c r | s e] rest IH]; simpl; [reflexivity | |]; now rewrite IH.
Qed.


(** ** The trace of each branch *)

Lemma createOrder_trace h c payload amount log :
  truthy payload = true ->
  truthy (property payload "data") = true ->
  parseFloat (stack_room h) (property (property payload "data") "amount")
  = Converted amount ->
  isNaN amount || le amount zero = false ->
  fst (createOrder h c payload log) =
    (log ++ [Executed c (order_request
                           (property (property payload "data") "currency")
                           amount)])%list.
Proof.
  intros Ht Hd Hn Hok. unfold createOrder.
  rewrite !(get2_truthy h _ _ _ Ht Hd). step. rewrite Hn.
  change (converted h (Converted amount)) with (ret amount). step.
  rewrite Hok. step.
  apply await_execute_trace. intros v. silence.
Qed.

(** The [catch] block logs and calls nothing. *)
Lemma sdk_calls_trace h body :
  sdk_calls (trace h body) = sdk_calls (fst (try_block h body [])).
Proof.
  unfold trace, handler. destruct (try_block h body []) as [log [r | e]]; simpl.
  - reflexivity.
  - rewrite sdk_calls_app. simpl. apply app_nil_r.
Qed.

(** ** The shape of the answers *)

Ltac walk H :=
  repeat first
    [ apply bind_normal in H; destruct H as (? & ? & _ & H); cbv beta zeta in H
    | match type of H with (if ?b then _ else _) _ = _ => destruct b end
    | discriminate H ];
  try (inversion H; subst; constructor).

Lemma createOrder_answer h c payload log log' r :
  createOrder h c payload log = (log', Normal r) -> answer r.
Proof. unfold createOrder. intros H. walk H. Qed.

Lemma captureOrder_answer h c payload log log' r :
  captureOrder h c payload log = (log', Normal r) -> answer r.
Proof. unfold captureOrder. intros H. walk H. Qed.

Lemma try_block_answer h body log log' r :
  try_block h body log = (log', Normal r) -> answer r.
Proof.
  unfold try_block. intros H.
  destruct (negb (truthy body)); [walk H |].
  destruct (parse_payload body) as [payload |]; [| walk H].
  apply bind_normal in H. destruct H as (missing & l1 & _ & H).
  destruct missing; [walk H |].
  apply bind_normal in H. destruct H as (c & l2 & _ & H).
  apply bind_normal in H. destruct H as (action & l3 & _ & H).
  destruct (is_literal action "createOrder");
    [now apply createOrder_answer in H |].
  destruct (is_literal action "captureOrder");
    [now apply captureOrder_answer in H |].
  walk H.
Qed.

End Effects.

(* ================================================================== *)
(** * Decimal text of amounts *)

Module Digits.

Import Number Js Spec.

Lemma code_chr z : 0 <= z < 256 -> Text.code (Text.chr z) = z.
Proof.
  intros Hz. unfold Text.code, Text.chr.
  rewrite N_ascii_embedding by lia. lia.
Qed.

Lemma digit_char_is_digit d : 0 <= d <= 9 -> Text.is_digit (Text.digit_char d) = true.
Proof.
  intros Hd. unfold Text.is_digit, Text.between, Text.digit_char.
  rewrite code_chr by lia. apply andb_true_iff. split; apply Z.leb_le; lia.
Qed.

Lemma string_of_uint_digits u :
  Text.all_chars Text.is_digit (NilEmpty.string_of_uint u) = true.
Proof. induction u; simpl; auto. Qed.

Lemma string_of_uint_nonempty u :
  u <> Decimal.Nil -> Text.is_empty (NilEmpty.string_of_uint u) = false.
Proof. destruct u; simpl; congruence. Qed.

Lemma decimal_digits z : Text.all_chars Text.is_digit (Text.decimal z) = true.
Proof. apply string_of_uint_digits. Qed.

Lemma decimal_nonempty z : Text.is_empty (Text.decimal z) = false.
Proof.
  apply string_of_uint_nonempty. destruct (Z.to_N z); simpl.
  - discriminate.
  - apply DecimalPos.Unsigned.to_uint_nonnil.
Qed.

(** A run of digits followed by a character that is none is what
    [span_digits] splits off. *)
Lemma span_digits_app ds c rest :
  Text.all_chars Text.is_digit ds = true ->
  Text.is_digit c = false ->
  Text.span_digits (ds ++ String c rest) = (ds, String c rest).
Proof.
  intros Hds Hc. induction ds as [| a ds IH]; simpl.
  - now rewrite Hc.
  - simpl in Hds. apply andb_true_iff in Hds. destruct Hds as [Ha Hds].
    rewrite Ha, (IH Hds). reflexivity.
Qed.

(** Below [10^21] a positive amount is written with two decimals. *)
Lemma toFixed_two_decimals x :
  isNaN x || le x zero = false ->
  below x (10 ^ 21) = true ->
  two_decimals (toFixed 2 x) = true.
Proof.
  intros Hv Hb.
  destruct x as [s | s | | s m e]; simpl in Hv; try discriminate Hv.
  - destruct s; discriminate.
  - destruct s; [discriminate Hv |].
    unfold below in Hb. unfold toFixed.
    destruct (fraction m e) as [num den].
    rewrite Z.leb_antisym, Hb. cbv [negb].
    set (scale := 10 ^ Z.of_nat 2).
    set (n := (2 * scale * num + den) / (2 * den)).
    change (two_decimals
              (Text.decimal (n / scale)
               ++ String "."
                    (String (Text.digit_char ((n mod scale / 10) mod 10))
                       (String (Text.digit_char ((n mod scale) mod 10))
                          EmptyString))) = true).
    unfold two_decimals.
    rewrite span_digits_app by (apply decimal_digits || reflexivity).
    rewrite decimal_nonempty.
    rewrite !digit_char_is_digit; [reflexivity | |].
    + pose proof (Z.mod_pos_bound (n mod scale) 10). lia.
    + pose proof (Z.mod_pos_bound (n mod scale / 10) 10). lia.
Qed.

(** From [10^21] on, and for [Infinity], [toFixed] writes what [toString]
    writes. *)
Lemma toFixed_large x :
  isNaN x || le x zero = false ->
  below x (10 ^ 21) = false ->
  toFixed 2 x = Number.toString x.
Proof.
  intros Hv Hb.
  destruct x as [s | s | | s m e]; simpl in Hv; try discriminate Hv.
  - reflexivity.
  - destruct s; [discriminate Hv |].
    unfold below in Hb. unfold toFixed.
    destruct (fraction m e) as [num den].
    now rewrite Z.leb_antisym, Hb.
Qed.

End Digits.

(* ================================================================== *)
(** * What [JSON.parse] returns *)

Module Parsing.

Import Number Js Spec.

Lemma word_token_defined w t : word_token w = Some t -> token_defined t.
Proof.
  unfold word_token.
  repeat match goal with |- context [if ?b then _ else _] => destruct b end;
    try (intros E; inversion E; subst; simpl; unfold defined; discriminate).
  destruct (json_number w); simpl; intros E; inversion E; subst.
  simpl. unfold defined. discriminate.
Qed.

Lemma start_defined c st ts :
  start c = Some (st, ts) -> Forall token_defined ts.
Proof.
  unfold start.
  destruct (is_json_space c); [intros E; inversion E; constructor |].
  destruct (Text.code c =? 34); [intros E; inversion E; constructor |].
  destruct (punctuation c) as [t |] eqn:Ep.
  - intros E; inversion E; subst. constructor; [| constructor].
    unfold punctuation in Ep.
    repeat match type of Ep with
           | match ?x with _ => _ end = _ => destruct x
           end; inversion Ep; exact I.
  - destruct (is_word_char c); intros E; inversion E; constructor.
Qed.

Lemma lex_defined s : forall st out ts,
  Forall token_defined out ->
  lex st out s = Some ts -> Forall token_defined ts.
Proof.
  induction s as [| c r IH]; intros st out ts Hout; simpl.
  - destruct st; try discriminate.
    + intros E; inversion E; subst. now apply Forall_rev.
    + unfold word_of. destruct (word_token _) as [t |] eqn:Ew; simpl;
        intros E; inversion E; subst.
      apply Forall_app. split; [now apply Forall_rev |].
      constructor; [eapply word_token_defined; eauto | constructor].
  - destruct st.
    + destruct (start c) as [[st' ts'] |] eqn:Es; [| discriminate].
      apply IH. apply Forall_app. split; [eapply start_defined; eauto | exact Hout].
    + destruct (is_word_char c); [now apply IH |].
      unfold word_of. destruct (word_token _) as [t |] eqn:Ew; [| discriminate].
      destruct (start c) as [[st' ts'] |] eqn:Es; [| discriminate].
      apply IH. apply Forall_app. split; [eapply start_defined; eauto |].
      constructor; [eapply word_token_defined; eauto | exact Hout].
    + destruct (Text.code c =? 34).
      { apply IH. constructor; [exact I | exact Hout]. }
      destruct (Text.code c =? 92); [now apply IH |].
      destruct (Text.code c <? 32); [discriminate | now apply IH].
    + destruct (Text.code c =? 117); [now apply IH |].
      destruct (escaped c); [now apply IH | discriminate].
    + destruct (hex_value c); [| discriminate].
      destruct (read =? 3); now apply IH.
Qed.

Lemma complete_defined v stack : defined v -> parsing_defined (complete v stack).
Proof. intros Hv. destruct stack as [| [acc | ms k] rest]; simpl; auto. Qed.

Lemma begin_value_defined t stack st :
  token_defined t -> begin_value t stack = Some st -> parsing_defined st.
Proof.
  destruct t; simpl; intros Ht E; inversion E; subst; simpl; auto.
  - apply complete_defined. unfold defined. discriminate.
  - now apply complete_defined.
Qed.

Lemma step_defined st t st' :
  token_defined t -> step st t = Some st' -> parsing_defined st'.
Proof.
  intros Ht. destruct st; simpl.
  - now apply begin_value_defined.
  - destruct t; simpl; intros E; inversion E; subst; simpl; auto;
      apply complete_defined; unfold defined; try discriminate; exact Ht.
  - destruct t; simpl; intros E; inversion E; subst; simpl; auto.
    apply complete_defined; unfold defined; discriminate.
  - destruct t; simpl; intros E; inversion E; subst; simpl; auto.
    apply complete_defined; unfold defined; discriminate.
  - destruct t; simpl; intros E; inversion E; subst; simpl; auto.
  - destruct t; simpl; intros E; inversion E; subst; simpl; auto.
  - destruct t; simpl; intros E; inversion E; subst; simpl; auto.
    apply complete_defined; unfold defined; discriminate.
  - discriminate.
Qed.

Lemma run_defined ts : forall st v,
  Forall token_defined ts -> parsing_defined st ->
  run st ts = Some v -> defined v.
Proof.
  induction ts as [| t rest IH]; intros st v Hts Hst; simpl.
  - destruct st; try discriminate. intros E; inversion E; subst. exact Hst.
  - destruct (step st t) as [st' |] eqn:Es; [| discriminate].
    inversion Hts; subst. apply IH; [assumption |].
    eapply step_defined; eauto.
Qed.

(** [JSON.parse] never returns [undefined]. *)
Lemma JSON_parse_defined text v : JSON_parse text = Some v -> defined v.
Proof.
  unfold JSON_parse. destruct (lex Between [] text) as [ts |] eqn:El; [| discriminate].
  apply run_defined; [| exact I].
  eapply lex_defined; [constructor | exact El].
Qed.

End Parsing.

(* ================================================================== *)
(** * The two orders, up to and after the call of the SDK *)

Module Links.

Import Number Js Sdk Run Main Spec Steps Effects.

Local Open Scope js_scope.

Lemma is_approval_link_present h link :
  nullish link = false ->
  is_approval_link h link = ret (is_literal (property link "rel") "approve").
Proof.
  intros Hl. unfold is_approval_link. now rewrite (get_present h _ _ Hl).
Qed.

(** [find] stops at the first link whose [rel] is ['approve']. *)
Lemma Array_find_first h before link after :
  Forall (fun l => nullish l = false
                   /\ is_literal (property l "rel") "approve" = false) before ->
  is_literal (property link "rel") "approve" = true ->
  Array_find (is_approval_link h) (before ++ link :: after) = ret link.
Proof.
  intros Hb Hl. induction Hb as [| x rest [Hx Hr] _ IH]; simpl.
  - rewrite is_approval_link_present.
    + step. now rewrite Hl.
    + destruct link; try discriminate Hl; reflexivity.
  - rewrite (is_approval_link_present _ _ Hx). step. now rewrite Hr.
Qed.

(** Without an approve link that has an [href], what [find] returns has
    none either. *)
Lemma Array_find_without_href h links :
  Forall (fun l => nullish l = false
                   /\ (is_literal (property l "rel") "approve" = true ->
                       truthy (property l "href") = false)) links ->
  exists found,
    Array_find (is_approval_link h) links = ret found
    /\ truthy (get_optional found "href") = false.
Proof.
  intros Hl. induction Hl as [| x rest [Hx Hr] _ IH]; simpl.
  - exists VUndefined. split; reflexivity.
  - rewrite (is_approval_link_present _ _ Hx). step.
    destruct (is_literal (property x "rel") "approve") eqn:E.
    + exists x. split; [reflexivity |].
      destruct x; try discriminate Hx; simpl; now apply Hr.
    + exact IH.
Qed.


Lemma get_optional_present v k :
  nullish v = false -> get_optional v k = property v k.
Proof. destruct v; simpl; try discriminate; reflexivity. Qed.

Lemma await_execute_resolved {B : Type} h c r resp (k : value -> Js B) log :
  execute h c r = Resolved resp ->
  bind (await_execute h c r) k log = k resp (log ++ [Executed c r])%list.
Proof. intros E. unfold await_execute, bind, emit. simpl. now rewrite E. Qed.

Lemma await_execute_rejected {B : Type} h c r e (k : value -> Js B) log :
  execute h c r = Rejected e ->
  bind (await_execute h c r) k log = ((log ++ [Executed c r])%list, Thrown e).
Proof. intros E. unfold await_execute, bind, emit. simpl. now rewrite E. Qed.

End Links.

Module Orders.

Import Number Js Sdk Run Main Spec Steps Effects Links.

Local Open Scope js_scope.

Section Create.

Variables (h : host) (body payload : value).

Variable amount : number.

Let data := property payload "data".
Let currency := property data "currency".

Hypothesis parsed : parse_payload body = Some payload.
Hypothesis action : is_literal (property payload "action") "createOrder" = true.
Hypothesis data_present : truthy data = true.
Hypothesis credentials : configured h = true.
Hypothesis amount_parsed :
  parseFloat (stack_room h) (property data "amount") = Converted amount.
Hypothesis amount_valid : isNaN amount || le amount zero = false.

(** Up to the call of the SDK. *)
Lemma try_block_create :
  try_block h body = createOrder h (client h) payload
  /\ truthy payload = true.
Proof.
  pose proof (is_literal_truthy _ _ _ _ action) as Hat.
  destruct (payload_truthy _ _ _ parsed Hat) as [_ Ht].
  split; [| exact Ht].
  now rewrite (try_block_configured h _ _ parsed Hat data_present credentials),
    action.
Qed.

Lemma create_rejected e :
  execute h (client h) (order_request currency amount) = Rejected e ->
  try_block h body [] =
    ([Executed (client h) (order_request currency amount)], Thrown e).
Proof.
  intros Hx. destruct try_block_create as [-> Ht]. unfold createOrder.
  rewrite !(get2_truthy h _ _ _ Ht data_present). step.
  fold data. rewrite (converted_value h _ _ amount_parsed). step.
  rewrite amount_valid. step.
  now rewrite (await_execute_rejected h _ _ e _ _ Hx).
Qed.

(** A conversion of the amount that throws ends the [try] block. *)
Lemma create_unconverted e :
  conversion_error h (parseFloat (stack_room h) (property data "amount"))
  = Some e ->
  try_block h body [] = ([], Thrown e).
Proof.
  intros He. destruct try_block_create as [-> Ht]. unfold createOrder.
  rewrite !(get2_truthy h _ _ _ Ht data_present). step.
  fold data. now rewrite (converted_error h _ _ He).
Qed.

Lemma create_resolved resp :
  execute h (client h) (order_request currency amount) = Resolved resp ->
  nullish resp = false ->
  nullish (property resp "result") = false ->
  try_block h body [] =
    (approvalLink <-
       find h "createResponse.result.links"
         (property (property resp "result") "links") (is_approval_link h) ;;
     if negb (truthy (get_optional approvalLink "href"))
     then throw (Error h "Missing approval URL in PayPal response")
     else
       approvalUrl <- get h approvalLink "href" ;;
       json (VObject
               [("status", VString "success");
                ("data",
                 VObject [("orderId", property (property resp "result") "id");
                          ("approvalUrl", approvalUrl);
                          ("status",
                           property (property resp "result") "status")])]))
      [Executed (client h) (order_request currency amount)].
Proof.
  intros Hx Hr Hres. destruct try_block_create as [-> Ht]. unfold createOrder.
  rewrite !(get2_truthy h _ _ _ Ht data_present). step.
  fold data. rewrite (converted_value h _ _ amount_parsed). step.
  rewrite amount_valid. step.
  rewrite (await_execute_resolved h _ _ resp _ _ Hx).
  rewrite !(get2_present h _ _ _ Hr Hres). step. reflexivity.
Qed.

End Create.


Section Capture.

Variables (h : host) (body payload : value).

Let data := property payload "data".
Let orderId := property data "orderId".

Hypothesis parsed : parse_payload body = Some payload.
Hypothesis action : is_literal (property payload "action") "captureOrder" = true.
Hypothesis data_present : truthy data = true.
Hypothesis credentials : configured h = true.
Hypothesis id_present : truthy orderId = true.
Hypothesis id_matches : test_order_id (stack_room h) orderId = Converted true.

Lemma try_block_capture :
  try_block h body = captureOrder h (client h) payload
  /\ truthy payload = true.
Proof.
  pose proof (is_literal_truthy _ _ _ _ action) as Hat.
  destruct (payload_truthy _ _ _ parsed Hat) as [_ Ht].
  split; [| exact Ht].
  assert (Hn : is_literal (property payload "action") "createOrder" = false)
    by now rewrite (is_literal_eq _ _ action).
  now rewrite (try_block_configured h _ _ parsed Hat data_present credentials),
    Hn, action.
Qed.

Lemma capture_rejected e :
  execute h (client h) (capture_request orderId) = Rejected e ->
  try_block h body [] =
    ([Executed (client h) (capture_request orderId)], Thrown e).
Proof.
  intros Hx. destruct try_block_capture as [-> Ht].
  unfold captureOrder. unfold capture_request in *.
  rewrite !(get2_truthy h _ _ _ Ht data_present). step.
  fold data orderId. rewrite id_present. simpl negb. cbv iota. step.
  rewrite (converted_value h _ _ id_matches). step.
  simpl negb. step. cbv iota.
  now rewrite (await_execute_rejected h _ _ e _ _ Hx).
Qed.

(** A conversion of the order id that throws ends the [try] block. *)
Lemma capture_unconverted e :
  conversion_error h (test_order_id (stack_room h) orderId) = Some e ->
  try_block h body [] = ([], Thrown e).
Proof.
  intros He. destruct try_block_capture as [-> Ht].
  unfold captureOrder.
  rewrite !(get2_truthy h _ _ _ Ht data_present). step.
  fold data orderId. rewrite id_present. simpl negb. cbv iota. step.
  now rewrite (converted_error h _ _ He).
Qed.

Lemma capture_resolved resp :
  execute h (client h) (capture_request orderId) = Resolved resp ->
  try_block h body [] =
    (if negb (truthy (get_optional (get_optional resp "result") "id"))
     then throw (Error h "Incomplete capture response from PayPal")
     else
       captureId <- get2 h resp "result" "id" ;;
       status <- get2 h resp "result" "status" ;;
       payer <- get2 h resp "result" "payer" ;;
       create_time <- get2 h resp "result" "create_time" ;;
       purchase_units <- get2 h resp "result" "purchase_units" ;;
       json (VObject
               [("status", VString "success");
                ("data",
                 VObject [("captureId", captureId);
                          ("status", status);
                          ("details",
                           VObject [("payer", payer);
                                    ("create_time", create_time);
                                    ("purchase_units", purchase_units)])])]))
      [Executed (client h) (capture_request orderId)].
Proof.
  intros Hx. destruct try_block_capture as [-> Ht].
  unfold captureOrder. unfold capture_request in *.
  rewrite !(get2_truthy h _ _ _ Ht data_present). step.
  fold data orderId. rewrite id_present. simpl negb. cbv iota. step.
  rewrite (converted_value h _ _ id_matches). step.
  simpl negb. step. cbv iota.
  now rewrite (await_execute_resolved h _ _ resp _ _ Hx).
Qed.

End Capture.

End Orders.

(* ================================================================== *)
(** * Properties of the handler *)

Module Properties.

Import Number Js Sdk Run Main Spec Steps Effects Links Orders.

Local Open Scope js_scope.

(** ** The envelope *)

(** C1 as stated fails.  With no variable set, the handler answers the
    request [{action: 'createOrder', data: {amount: '12.50'}}] from its
    [catch] block, and the answer has a field [debug] besides [status],
    [code] and [message]. *)
Lemma debug_field_outside_production :
  envelope ["status"; "code"; "message"; "data"]
    (response Sample.unconfigured (Sample.order_for "12.50")) = false
  /\ has_field (response Sample.unconfigured (Sample.order_for "12.50"))
       "debug" = true.
Proof. split; reflexivity. Qed.

(** C1, amended.  Every answer of the handler is an object with a [status]
    field whose fields are among [status], [code], [message], [data] and
    [debug]; an error carries [code] and [message], a success carries
    [data].  [debug] is there exactly when the [try] block threw and
    [NODE_ENV] is not ['production']; without it the fields are among the
    four of the specification. *)
Theorem response_envelope h body :
  envelope ["status"; "code"; "message"; "data"; "debug"] (response h body)
  = true
  /\ has_field (response h body) "debug"
     = match thrown h body with
       | Some _ => negb (production h)
       | None => false
       end
  /\ envelope ["status"; "code"; "message"; "data"] (response h body)
     = negb (has_field (response h body) "debug").
Proof.
  unfold response, thrown, handler.
  destruct (try_block h body []) as [log [r | e]] eqn:E; simpl.
  - apply try_block_answer in E. destruct E as [c m | d]; repeat split.
  - unfold catch_response, production.
    destruct (is_literal (env h "NODE_ENV") "production"); repeat split.
Qed.

(** ** Caught exceptions *)

(** C2 as stated fails.  When the SDK rejects with an error whose message is
    the empty string, the message of the answer is not that message; and
    when the error has the status code 0, the code of the answer is 500. *)
Lemma catch_block_fallbacks :
  thrown (Sample.rejecting Sample.unauthorized)
    (Sample.capture_of "5O190127TN364715T") = Some Sample.unauthorized
  /\ property (response (Sample.rejecting Sample.unauthorized)
                 (Sample.capture_of "5O190127TN364715T")) "message"
     <> message Sample.unauthorized
  /\ thrown (Sample.rejecting Sample.aborted)
       (Sample.capture_of "5O190127TN364715T") = Some Sample.aborted
  /\ property (response (Sample.rejecting Sample.aborted)
                 (Sample.capture_of "5O190127TN364715T")) "code"
     <> statusCode Sample.aborted.
Proof. repeat split; discriminate. Qed.

(** C2, amended.  When the [try] block throws [e], the handler logs [e] and
    answers an error whose code is [e.statusCode] when that is truthy and
    500 otherwise, whose message is [e.message] when that is truthy and
    ['Internal server error'] otherwise, and which has a [debug] field,
    holding [e.stack], exactly when [NODE_ENV] is not ['production']. *)
Theorem exception_answered h body e :
  thrown h body = Some e ->
  property (response h body) "status" = VString "error"
  /\ property (response h body) "code"
     = (if truthy (statusCode e) then statusCode e else VNumber (of_Z 500))
  /\ property (response h body) "message"
     = (if truthy (message e) then message e
        else VString "Internal server error")
  /\ has_field (response h body) "debug" = negb (production h)
  /\ property (response h body) "debug"
     = (if production h then VUndefined else stack e)
  /\ In (Logged "Server Error:" e) (trace h body).
Proof.
  unfold thrown, response, trace, handler.
  destruct (try_block h body []) as [log [r | e']]; simpl; [discriminate |].
  intros E. inversion E; subst e'. clear E.
  unfold catch_response, production, or_else.
  destruct (is_literal (env h "NODE_ENV") "production"); simpl;
    repeat split; apply in_or_app; right; left; reflexivity.
Qed.

Lemma exception_answered_witness :
  thrown (Sample.rejecting Sample.unprocessable)
    (Sample.capture_of "5O190127TN364715T") = Some Sample.unprocessable
  /\ property (response (Sample.rejecting Sample.unprocessable)
                 (Sample.capture_of "5O190127TN364715T")) "code"
     = VNumber (of_Z 422).
Proof.
  split; [reflexivity |].
  destruct (exception_answered (Sample.rejecting Sample.unprocessable)
              (Sample.capture_of "5O190127TN364715T") Sample.unprocessable
              eq_refl) as (_ & E & _).
  etransitivity; [exact E | reflexivity].
Defined.

(** ** The amount *)

(** C3 as stated fails.  Without credentials a createOrder request whose
    amount parses to NaN is answered from the [catch] block.  With
    credentials a createOrder request whose [data] is [false] is answered
    ['Missing action or data parameter'], although [data.amount] is
    [undefined] and parses to NaN.  Neither gets
    ['Invalid amount specified']. *)
Lemma invalid_amount_not_reached :
  is_literal (property (Sample.order_for "abc") "action") "createOrder" = true
  /\ parseFloat (stack_room Sample.unconfigured)
       (property (property (Sample.order_for "abc") "data") "amount")
     = Converted NaN
  /\ response Sample.unconfigured (Sample.order_for "abc")
     <> error_response 400 "Invalid amount specified"
  /\ is_literal (property (Sample.without_data "createOrder") "action")
       "createOrder" = true
  /\ parseFloat (stack_room Sample.development)
       (property (property (Sample.without_data "createOrder") "data")
          "amount")
     = Converted NaN
  /\ response Sample.development (Sample.without_data "createOrder")
     <> error_response 400 "Invalid amount specified".
Proof. repeat split; discriminate. Qed.

(** C3, amended.  When both credentials are set, a request whose payload has
    action ['createOrder'] and a truthy [data], and whose [data.amount]
    parses to NaN or to a value at most zero, is answered
    [{status: 'error', code: 400, message: 'Invalid amount specified'}], and
    the SDK is not called.  That the amount parses says that [parseFloat]
    returns: its argument is converted to a string. *)
Theorem invalid_amount_rejected h body payload amount :
  parse_payload body = Some payload ->
  is_literal (property payload "action") "createOrder" = true ->
  truthy (property payload "data") = true ->
  configured h = true ->
  parseFloat (stack_room h) (property (property payload "data") "amount")
  = Converted amount ->
  isNaN amount || le amount zero = true ->
  handler h body = ([], error_response 400 "Invalid amount specified").
Proof.
  intros Hp Ha Hd Hc Hn Hbad.
  pose proof (is_literal_truthy _ _ _ _ Ha) as Hat.
  destruct (payload_truthy _ _ _ Hp Hat) as [_ Ht].
  apply handler_normal.
  rewrite (try_block_configured h _ _ Hp Hat Hd Hc), Ha.
  unfold createOrder. rewrite (get2_truthy h _ _ _ Ht Hd). step.
  rewrite (converted_value h _ _ Hn). step.
  now rewrite Hbad.
Qed.

Lemma invalid_amount_rejected_witness :
  handler Sample.development (Sample.order_for "-5")
  = ([], error_response 400 "Invalid amount specified").
Proof.
  apply (invalid_amount_rejected Sample.development
           (Sample.order_for "-5") (Sample.order_for "-5")
           (parseFloat_text "-5"));
    first [reflexivity | vm_compute; reflexivity].
Defined.

(** ** The order id *)

(** C4 as stated fails.  Without credentials a captureOrder request with no
    order id is answered from the [catch] block.  With credentials a
    captureOrder request whose [data] is [false] is answered
    ['Missing action or data parameter'], and one whose order id is an
    object with an own [toString] property, which the test of the pattern
    cannot convert to a string, is answered from the [catch] block.  None
    gets ['Invalid order ID']. *)
Lemma invalid_order_id_not_reached :
  is_literal (property (Sample.request_of "captureOrder" "note" VNull) "action")
    "captureOrder" = true
  /\ property (property (Sample.request_of "captureOrder" "note" VNull) "data")
       "orderId" = VUndefined
  /\ response Sample.unconfigured (Sample.request_of "captureOrder" "note" VNull)
     <> error_response 400 "Invalid order ID"
  /\ is_literal (property (Sample.without_data "captureOrder") "action")
       "captureOrder" = true
  /\ property (property (Sample.without_data "captureOrder") "data") "orderId"
     = VUndefined
  /\ response Sample.development (Sample.without_data "captureOrder")
     <> error_response 400 "Invalid order ID"
  /\ test_order_id (stack_room Sample.development) Sample.unconvertible
     <> Converted true
  /\ response Sample.development
       (Sample.request_of "captureOrder" "orderId" Sample.unconvertible)
     <> error_response 400 "Invalid order ID".
Proof. repeat split; discriminate. Qed.

(** C4, amended.  When both credentials are set, a request whose payload has
    action ['captureOrder'] and a truthy [data], and whose [data.orderId] is
    absent (or falsy) or is converted to a string that does not match
    [^[A-Z0-9]{17}$], is answered
    [{status: 'error', code: 400, message: 'Invalid order ID'}], and the SDK
    is not called. *)
Theorem invalid_order_id_rejected h body payload :
  parse_payload body = Some payload ->
  is_literal (property payload "action") "captureOrder" = true ->
  truthy (property payload "data") = true ->
  configured h = true ->
  truthy (property (property payload "data") "orderId") = false
  \/ test_order_id (stack_room h)
       (property (property payload "data") "orderId") = Converted false ->
  handler h body = ([], error_response 400 "Invalid order ID").
Proof.
  intros Hp Ha Hd Hc Hbad.
  pose proof (is_literal_truthy _ _ _ _ Ha) as Hat.
  destruct (payload_truthy _ _ _ Hp Hat) as [_ Ht].
  apply handler_normal.
  assert (Hn : is_literal (property payload "action") "createOrder" = false)
    by now rewrite (is_literal_eq _ _ Ha).
  rewrite (try_block_configured h _ _ Hp Hat Hd Hc), Hn, Ha.
  unfold captureOrder. rewrite !(get2_truthy h _ _ _ Ht Hd). step.
  destruct (truthy (property (property payload "data") "orderId")); simpl.
  - step. destruct Hbad as [Hbad | Hbad]; [discriminate Hbad |].
    rewrite (converted_value h _ _ Hbad). step. reflexivity.
  - reflexivity.
Qed.

Lemma invalid_order_id_rejected_witness :
  test_order_id (stack_room Sample.development) (VString "5o190127tn364715t")
  = Converted false
  /\ handler Sample.development (Sample.capture_of "5o190127tn364715t")
     = ([], error_response 400 "Invalid order ID").
Proof.
  split; [reflexivity |].
  apply (invalid_order_id_rejected Sample.development
           (Sample.capture_of "5o190127tn364715t")
           (Sample.capture_of "5o190127tn364715t"));
    try reflexivity.
  right. reflexivity.
Defined.

(** ** Missing parameters *)

(** C5: the code departs from the claim at the body [null].  The text is
    valid JSON, the payload it denotes has neither [action] nor [data], and
    reading [payload.action] throws: the answer comes from the [catch]
    block, with code 500 and the message of the TypeError. *)
Theorem null_payload_answer h :
  parse_payload (VString "null") = Some VNull
  /\ handler h (VString "null")
     = ([Logged "Server Error:"
           (TypeError h "Cannot read properties of null (reading 'action')")],
        failure h 500 "Cannot read properties of null (reading 'action')"
          (stack_of h
             "TypeError: Cannot read properties of null (reading 'action')")).
Proof.
  split; [reflexivity |].
  unfold handler, failure, production, catch_response.
  change (try_block h (VString "null") [])
    with (@nil event,
          @Thrown value
            (TypeError h "Cannot read properties of null (reading 'action')")).
  cbv iota. unfold TypeError, or_else. cbn [statusCode message stack truthy].
  now destruct (is_literal (env h "NODE_ENV") "production").
Qed.

(** X1.  For every other payload C5 holds: a present body whose payload is not
    [null] and lacks a truthy [action] or a truthy [data] is answered
    [{status: 'error', code: 400, message: 'Missing action or data
    parameter'}], with no effect at all. *)
Theorem missing_parameter_rejected h body payload :
  truthy body = true ->
  parse_payload body = Some payload ->
  payload <> VNull ->
  truthy (property payload "action") = false
  \/ truthy (property payload "data") = false ->
  handler h body = ([], error_response 400 "Missing action or data parameter").
Proof.
  intros Hb Hp Hnull Hm.
  assert (Hn : nullish payload = false).
  { destruct body; simpl in Hp;
      try (inversion Hp; subst; now apply truthy_present).
    pose proof (Parsing.JSON_parse_defined _ _ Hp) as Hdef.
    destruct payload; try reflexivity; [now elim Hdef | now elim Hnull]. }
  apply handler_normal. unfold try_block. rewrite Hb, Hp. simpl negb. cbv iota.
  now rewrite (missing_parameter_absent h _ Hn Hm).
Qed.

Lemma missing_parameter_rejected_witness :
  handler Sample.unconfigured (VString "{}")
  = ([], error_response 400 "Missing action or data parameter").
Proof.
  apply (missing_parameter_rejected Sample.unconfigured
           (VString "{}") (VObject []));
    try reflexivity.
  - discriminate.
  - left. reflexivity.
Defined.

(** X2.  A missing body, or any falsy one, is answered
    [{status: 'error', code: 400, message: 'Request body is required'}]. *)
Theorem missing_body_rejected h body :
  truthy body = false ->
  handler h body = ([], error_response 400 "Request body is required").
Proof.
  intros Hb. apply handler_normal. unfold try_block. now rewrite Hb.
Qed.

Lemma missing_body_rejected_witness :
  handler Sample.development VUndefined
  = ([], error_response 400 "Request body is required").
Proof. apply (missing_body_rejected Sample.development VUndefined). reflexivity. Defined.

(** ** Bodies that do not parse *)

(** C6 as stated fails.  The empty string is not valid JSON, and the handler
    answers it ['Request body is required']. *)
Lemma empty_body_is_not_json :
  JSON_parse "" = None
  /\ response Sample.development (VString "")
     <> error_response 400 "Invalid JSON format".
Proof. split; [reflexivity | vm_compute; discriminate]. Qed.

(** C6, amended.  A body that is a string, not empty and not valid JSON, is
    answered [{status: 'error', code: 400, message: 'Invalid JSON format'}];
    a body that is not a string is the payload as it is. *)
Theorem invalid_json_rejected h :
  (forall text,
      Text.is_empty text = false -> JSON_parse text = None ->
      handler h (VString text)
      = ([], error_response 400 "Invalid JSON format"))
  /\ (forall body, is_string body = false -> parse_payload body = Some body).
Proof.
  split.
  - intros text Hne Hp. apply handler_normal. unfold try_block.
    cbn [truthy parse_payload]. now rewrite Hne, Hp.
  - intros body Hs. destruct body; try reflexivity. discriminate Hs.
Qed.

Lemma invalid_json_rejected_witness :
  JSON_parse "{action: createOrder}" = None
  /\ handler Sample.live (VString "{action: createOrder}")
     = ([], error_response 400 "Invalid JSON format")
  /\ parse_payload (Sample.order_for "12.50") = Some (Sample.order_for "12.50").
Proof.
  split; [reflexivity |]. split.
  - apply (proj1 (invalid_json_rejected Sample.live)); reflexivity.
  - apply (proj2 (invalid_json_rejected Sample.live)); reflexivity.
Defined.

(** ** Unsupported actions *)

(** C7 as stated fails.  Without credentials a request for an action the
    handler does not know is answered from the [catch] block, not with
    ['Unsupported action']. *)
Lemma unsupported_action_unconfigured :
  truthy (property (Sample.request_of "refundOrder" "orderId" VNull) "action")
  = true
  /\ truthy (property (Sample.request_of "refundOrder" "orderId" VNull) "data")
     = true
  /\ response Sample.unconfigured
       (Sample.request_of "refundOrder" "orderId" VNull)
     <> error_response 400 "Unsupported action".
Proof. repeat split. discriminate. Qed.

(** C7, amended.  When both credentials are set, a request whose payload has
    a truthy [action] and a truthy [data], the action being neither
    ['createOrder'] nor ['captureOrder'], is answered
    [{status: 'error', code: 400, message: 'Unsupported action'}], and the
    SDK is not called. *)
Theorem unsupported_action_rejected h body payload :
  parse_payload body = Some payload ->
  truthy (property payload "action") = true ->
  truthy (property payload "data") = true ->
  is_literal (property payload "action") "createOrder" = false ->
  is_literal (property payload "action") "captureOrder" = false ->
  configured h = true ->
  handler h body = ([], error_response 400 "Unsupported action").
Proof.
  intros Hp Hat Hd H1 H2 Hc. apply handler_normal.
  now rewrite (try_block_configured h _ _ Hp Hat Hd Hc), H1, H2.
Qed.

Lemma unsupported_action_rejected_witness :
  handler Sample.live (Sample.request_of "refundOrder" "orderId" VNull)
  = ([], error_response 400 "Unsupported action").
Proof.
  apply (unsupported_action_rejected Sample.live
           (Sample.request_of "refundOrder" "orderId" VNull)
           (Sample.request_of "refundOrder" "orderId" VNull));
    reflexivity.
Defined.

(** ** Credentials *)

(** C8 as stated fails.  With no variable set, [NODE_ENV] is not
    ['production'], and the answer to a request that passed the three checks
    is not the three-field object: it has a [debug] field as well. *)
Lemma credentials_answer_has_debug :
  truthy (property (Sample.order_for "-5") "action") = true
  /\ truthy (property (Sample.order_for "-5") "data") = true
  /\ configured Sample.unconfigured = false
  /\ response Sample.unconfigured (Sample.order_for "-5")
     <> error_response 500 "PayPal credentials not configured".
Proof. repeat split. discriminate. Qed.

(** C8, amended.  When [PAYPAL_CLIENT_ID] or [PAYPAL_SECRET] is unset or
    empty, every request whose payload has a truthy [action] and a truthy
    [data] is answered with status ['error'], code 500 and message
    ['PayPal credentials not configured'], and with [debug] holding the
    stack unless [NODE_ENV] is ['production']; the error is logged and the
    SDK is not called.  Neither the amount nor the order id nor the action
    is looked at before: such requests get this answer, not a 400. *)
Theorem credentials_checked_first h body payload :
  parse_payload body = Some payload ->
  truthy (property payload "action") = true ->
  truthy (property payload "data") = true ->
  configured h = false ->
  handler h body =
    ([Logged "Server Error:" (Error h "PayPal credentials not configured")],
     failure h 500 "PayPal credentials not configured"
       (stack_of h "Error: PayPal credentials not configured")).
Proof.
  intros Hp Hat Hd Hc.
  rewrite (handler_thrown h body []
             (Error h "PayPal credentials not configured")).
  - unfold catch_response, failure, production. simpl.
    now destruct (is_literal (env h "NODE_ENV") "production").
  - now rewrite (try_block_unconfigured h _ _ Hp Hat Hd Hc).
Qed.

Lemma credentials_checked_first_witness :
  parseFloat (stack_room Sample.unconfigured_production) (VString "abc")
  = Converted NaN
  /\ response Sample.unconfigured_production (Sample.order_for "abc")
     = error_response 500 "PayPal credentials not configured".
Proof.
  split; [reflexivity |].
  unfold response.
  rewrite (credentials_checked_first Sample.unconfigured_production
             (Sample.order_for "abc") (Sample.order_for "abc"));
    reflexivity.
Defined.

(** ** The purchase unit *)

(** C9: the code departs from the claim at the amount ['1e21'].  It passes
    the validation of line 58, and the value sent to the SDK is the text
    [1e+21], which has no decimal places: from 10^21 on [toFixed] writes
    what [toString] writes, and line 58 lets such amounts through. *)
Theorem huge_amount_sent :
  parseFloat (stack_room Sample.development) (VString "1e21")
  = Converted (of_Z (10 ^ 21))
  /\ isNaN (of_Z (10 ^ 21)) || le (of_Z (10 ^ 21)) zero = false
  /\ option_map (fun r => property (purchase_amount r) "value")
       (hd_error (sdk_calls (trace Sample.development
                               (Sample.order_for "1e21"))))
     = Some (VString "1e+21")
  /\ two_decimals "1e+21" = false.
Proof. vm_compute. repeat split. Qed.

(** X20.  Below 10^21 C9 holds.  For a createOrder request whose amount is
    parsed and passes the validation, the SDK is called once when the
    credentials are set (and not at all otherwise), with a request that has
    one purchase unit, whose [currency_code] is [payload.data.currency] when
    that is truthy and ['EUR'] otherwise and whose [value] is
    [amount.toFixed(2)].  That text has exactly two decimal places when the
    amount is below 10^21; from 10^21 on, and for [Infinity], it is what
    [toString] writes. *)
Theorem order_purchase_unit h body payload amount :
  let data := property payload "data" in
  let currency := property data "currency" in
  parse_payload body = Some payload ->
  is_literal (property payload "action") "createOrder" = true ->
  truthy data = true ->
  parseFloat (stack_room h) (property data "amount") = Converted amount ->
  isNaN amount || le amount zero = false ->
  sdk_calls (trace h body)
  = (if configured h then [order_request currency amount] else [])
  /\ single_unit (order_request currency amount) = true
  /\ purchase_amount (order_request currency amount)
     = VObject [("currency_code",
                 if truthy currency then currency else VString "EUR");
                ("value", VString (toFixed 2 amount))]
  /\ (if below amount (10 ^ 21)
      then two_decimals (toFixed 2 amount) = true
      else toFixed 2 amount = Number.toString amount).
Proof.
  intros data currency Hp Ha Hd Hn Hok.
  pose proof (is_literal_truthy _ _ _ _ Ha) as Hat.
  destruct (payload_truthy _ _ _ Hp Hat) as [_ Ht].
  split; [| split; [reflexivity | split; [reflexivity |]]].
  - rewrite sdk_calls_trace.
    destruct (configured h) eqn:Hc.
    + rewrite (try_block_configured h _ _ Hp Hat Hd Hc), Ha.
      now rewrite (createOrder_trace h _ _ _ _ Ht Hd Hn Hok).
    + now rewrite (try_block_unconfigured h _ _ Hp Hat Hd Hc).
  - destruct (below amount (10 ^ 21)) eqn:Hb.
    + now apply Digits.toFixed_two_decimals.
    + now apply Digits.toFixed_large.
Qed.

Lemma order_purchase_unit_witness :
  parse_payload (VString Sample.order_text) = Some Sample.order_payload
  /\ sdk_calls (trace Sample.development (VString Sample.order_text))
     = [order_request (VString "USD") (of_decimal false 1250 (-2))]
  /\ purchase_amount (order_request (VString "USD") (of_decimal false 1250 (-2)))
     = VObject [("currency_code", VString "USD"); ("value", VString "12.50")].
Proof.
  destruct (order_purchase_unit Sample.development
              (VString Sample.order_text) Sample.order_payload
              (parseFloat_text "12.50")
              eq_refl eq_refl eq_refl eq_refl eq_refl)
    as (Hcalls & _ & Hunit & _).
  split; [reflexivity |].
  split.
  - etransitivity; [exact Hcalls | vm_compute; reflexivity].
  - vm_compute. reflexivity.
Defined.

(** ** The approval link *)

(** C10: the code departs from the claim when the response has no [links]
    at all.  Reading [links.find] throws a TypeError before line 89 is
    reached; the answer has code 500 and the message of the TypeError. *)
Theorem missing_links_answer :
  property (property Sample.created_without_links "result") "links"
  = VUndefined
  /\ sdk_calls (trace Sample.linkless (Sample.order_for "12.50"))
     = [order_request VUndefined (of_decimal false 1250 (-2))]
  /\ response Sample.linkless (Sample.order_for "12.50")
     = error_response 500
         "Cannot read properties of undefined (reading 'find')".
Proof. vm_compute. repeat split. Qed.

(** X3.  When [links] is an array of objects, C10 holds: if no link with [rel]
    ['approve'] has a truthy [href], the handler logs and answers with code
    500 and message ['Missing approval URL in PayPal response']. *)
Theorem missing_approval_link_reported h body payload amount resp links :
  let data := property payload "data" in
  let currency := property data "currency" in
  parse_payload body = Some payload ->
  is_literal (property payload "action") "createOrder" = true ->
  truthy data = true ->
  configured h = true ->
  parseFloat (stack_room h) (property data "amount") = Converted amount ->
  isNaN amount || le amount zero = false ->
  execute h (client h) (order_request currency amount) = Resolved resp ->
  property (property resp "result") "links" = VArray links ->
  Forall (fun l => nullish l = false
                   /\ (is_literal (property l "rel") "approve" = true ->
                       truthy (property l "href") = false)) links ->
  handler h body =
    ([Executed (client h) (order_request currency amount);
      Logged "Server Error:"
        (Error h "Missing approval URL in PayPal response")],
     failure h 500 "Missing approval URL in PayPal response"
       (stack_of h "Error: Missing approval URL in PayPal response")).
Proof.
  intros data currency Hp Ha Hd Hc Hn Hok Hx Hlinks Hall.
  assert (Hres : nullish (property resp "result") = false)
    by (destruct (property resp "result"); try discriminate Hlinks; reflexivity).
  assert (Hr : nullish resp = false)
    by (destruct resp; try discriminate Hres; reflexivity).
  destruct (Array_find_without_href h links Hall) as (found & Hf & Hhref).
  rewrite (handler_thrown h body
             [Executed (client h) (order_request currency amount)]
             (Error h "Missing approval URL in PayPal response")).
  - unfold catch_response, failure, production. simpl.
    now destruct (is_literal (env h "NODE_ENV") "production").
  - rewrite (create_resolved h body payload amount Hp Ha Hd Hc Hn Hok
               resp Hx Hr Hres).
    rewrite Hlinks. cbn [find]. rewrite Hf. step. now rewrite Hhref.
Qed.

Lemma missing_approval_link_reported_witness :
  response (Sample.answering Sample.created_without_approval)
    (Sample.order_for "12.50")
  = error_response 500 "Missing approval URL in PayPal response".
Proof.
  unfold response.
  rewrite (missing_approval_link_reported
             (Sample.answering Sample.created_without_approval)
             (Sample.order_for "12.50") (Sample.order_for "12.50")
             (parseFloat_text "12.50")
             Sample.created_without_approval
             [Sample.self_link]);
    try reflexivity.
  constructor; [| constructor]. split; [reflexivity | discriminate].
Defined.

(** ** Successful orders *)

(** X4.  A createOrder request that passes the checks, answered by PayPal with
    links of which the first with [rel] ['approve'] has a truthy [href], is
    answered [{status: 'success', data: {orderId, approvalUrl, status}}]
    from [result.id], that [href] and [result.status]. *)
Theorem order_created h body payload amount resp before link after :
  let data := property payload "data" in
  let currency := property data "currency" in
  let result := property resp "result" in
  parse_payload body = Some payload ->
  is_literal (property payload "action") "createOrder" = true ->
  truthy data = true ->
  configured h = true ->
  parseFloat (stack_room h) (property data "amount") = Converted amount ->
  isNaN amount || le amount zero = false ->
  execute h (client h) (order_request currency amount) = Resolved resp ->
  property result "links" = VArray (before ++ link :: after) ->
  Forall (fun l => nullish l = false
                   /\ is_literal (property l "rel") "approve" = false) before ->
  is_literal (property link "rel") "approve" = true ->
  truthy (property link "href") = true ->
  handler h body =
    ([Executed (client h) (order_request currency amount)],
     VObject [("status", VString "success");
              ("data", VObject [("orderId", property result "id");
                                ("approvalUrl", property link "href");
                                ("status", property result "status")])]).
Proof.
  intros data currency result Hp Ha Hd Hc Hn Hok Hx Hlinks Hb Hl Hhref.
  assert (Hres : nullish result = false)
    by (unfold result in *; destruct (property resp "result");
        try discriminate Hlinks; reflexivity).
  assert (Hr : nullish resp = false)
    by (unfold result in Hres; destruct resp; try discriminate Hres; reflexivity).
  assert (Hlink : nullish link = false)
    by (destruct link; try discriminate Hl; reflexivity).
  apply handler_normal.
  rewrite (create_resolved h body payload amount Hp Ha Hd Hc Hn Hok
             resp Hx Hr Hres).
  fold result. rewrite Hlinks. cbn [find].
  rewrite (Array_find_first h _ _ _ Hb Hl). step.
  rewrite (get_optional_present _ _ Hlink), Hhref. simpl negb. cbv iota.
  now rewrite (get_present h _ _ Hlink).
Qed.

Lemma order_created_witness :
  response Sample.development (VString Sample.order_text)
  = VObject
      [("status", VString "success");
       ("data",
        VObject
          [("orderId", VString "5O190127TN364715T");
           ("approvalUrl", VString Sample.approval_url);
           ("status", VString "CREATED")])].
Proof.
  unfold response.
  rewrite (order_created Sample.development (VString Sample.order_text)
             Sample.order_payload (parseFloat_text "12.50") Sample.created
             [Sample.self_link] Sample.approve_link []);
    try reflexivity.
  constructor; [| constructor]. split; reflexivity.
Defined.

(** X5.  A captureOrder request that passes the checks, answered by PayPal with a
    truthy [result.id], is answered [{status: 'success', data: {captureId,
    status, details: {payer, create_time, purchase_units}}}] from the
    result. *)
Theorem order_captured h body payload resp :
  let data := property payload "data" in
  let orderId := property data "orderId" in
  let result := property resp "result" in
  parse_payload body = Some payload ->
  is_literal (property payload "action") "captureOrder" = true ->
  truthy data = true ->
  configured h = true ->
  truthy orderId = true ->
  test_order_id (stack_room h) orderId = Converted true ->
  execute h (client h) (capture_request orderId) = Resolved resp ->
  truthy (property result "id") = true ->
  handler h body =
    ([Executed (client h) (capture_request orderId)],
     VObject
       [("status", VString "success");
        ("data",
         VObject
           [("captureId", property result "id");
            ("status", property result "status");
            ("details",
             VObject [("payer", property result "payer");
                      ("create_time", property result "create_time");
                      ("purchase_units",
                       property result "purchase_units")])])]).
Proof.
  intros data orderId result Hp Ha Hd Hc Ho Hm Hx Hid.
  destruct (property_truthy_object _ _ Hid) as [ps Eres].
  assert (Hres : nullish result = false) by now rewrite Eres.
  assert (Hr : nullish resp = false)
    by (unfold result in Hres; destruct resp; try discriminate Hres; reflexivity).
  apply handler_normal.
  rewrite (capture_resolved h body payload Hp Ha Hd Hc Ho Hm resp Hx).
  rewrite !(get_optional_present _ _ Hr). fold result.
  rewrite !(get_optional_present _ _ Hres), Hid. simpl negb. cbv iota.
  now rewrite !(get2_present h _ _ _ Hr Hres).
Qed.

Lemma order_captured_witness :
  response (Sample.answering Sample.captured)
    (Sample.capture_of "5O190127TN364715T")
  = VObject
      [("status", VString "success");
       ("data",
        VObject
          [("captureId", VString "5O190127TN364715T");
           ("status", VString "COMPLETED");
           ("details",
            VObject [("payer", VObject [("payer_id", VString "QYR5Z8XDVJNXQ")]);
                     ("create_time", VString "2024-03-01T10:15:00Z");
                     ("purchase_units", VArray [])])])].
Proof.
  unfold response.
  rewrite (order_captured (Sample.answering Sample.captured)
             (Sample.capture_of "5O190127TN364715T")
             (Sample.capture_of "5O190127TN364715T") Sample.captured);
    reflexivity.
Defined.

(** X6.  A capture whose response has no truthy [result.id] is logged and
    answered with code 500 and message ['Incomplete capture response from
    PayPal']. *)
Theorem incomplete_capture_reported h body payload resp :
  let data := property payload "data" in
  let orderId := property data "orderId" in
  parse_payload body = Some payload ->
  is_literal (property payload "action") "captureOrder" = true ->
  truthy data = true ->
  configured h = true ->
  truthy orderId = true ->
  test_order_id (stack_room h) orderId = Converted true ->
  execute h (client h) (capture_request orderId) = Resolved resp ->
  truthy (get_optional (get_optional resp "result") "id") = false ->
  handler h body =
    ([Executed (client h) (capture_request orderId);
      Logged "Server Error:"
        (Error h "Incomplete capture response from PayPal")],
     failure h 500 "Incomplete capture response from PayPal"
       (stack_of h "Error: Incomplete capture response from PayPal")).
Proof.
  intros data orderId Hp Ha Hd Hc Ho Hm Hx Hid.
  rewrite (handler_thrown h body
             [Executed (client h) (capture_request orderId)]
             (Error h "Incomplete capture response from PayPal")).
  - unfold catch_response, failure, production. simpl.
    now destruct (is_literal (env h "NODE_ENV") "production").
  - rewrite (capture_resolved h body payload Hp Ha Hd Hc Ho Hm resp Hx).
    now rewrite Hid.
Qed.

Lemma incomplete_capture_reported_witness :
  response (Sample.answering VUndefined)
    (Sample.capture_of "5O190127TN364715T")
  = error_response 500 "Incomplete capture response from PayPal".
Proof.
  unfold response.
  rewrite (incomplete_capture_reported (Sample.answering VUndefined)
             (Sample.capture_of "5O190127TN364715T")
             (Sample.capture_of "5O190127TN364715T") VUndefined);
    reflexivity.
Defined.

(** ** Rejections of the SDK *)

(** X7.  When the promise of [execute] rejects with [e], be it for a create or
    for a capture request, [e] is what the [try] block throws: the handler
    logs it and answers from the [catch] block. *)
Theorem sdk_rejection_answered h body payload amount e :
  let data := property payload "data" in
  let orderId := property data "orderId" in
  parse_payload body = Some payload ->
  truthy data = true ->
  configured h = true ->
  (is_literal (property payload "action") "createOrder" = true
   /\ parseFloat (stack_room h) (property data "amount") = Converted amount
   /\ isNaN amount || le amount zero = false
   /\ execute h (client h)
        (order_request (property data "currency") amount) = Rejected e)
  \/ (is_literal (property payload "action") "captureOrder" = true
      /\ truthy orderId = true
      /\ test_order_id (stack_room h) orderId = Converted true
      /\ execute h (client h) (capture_request orderId) = Rejected e) ->
  thrown h body = Some e
  /\ sdk_calls (trace h body) <> []
  /\ response h body = catch_response h e.
Proof.
  intros data orderId Hp Hd Hc
    [(Ha & Hn & Hok & Hx) | (Ha & Ho & Hm & Hx)].
  - pose proof (create_rejected h body payload amount Hp Ha Hd Hc Hn Hok e Hx)
      as E.
    unfold thrown, response, trace, handler. rewrite E. simpl.
    repeat split. discriminate.
  - pose proof (capture_rejected h body payload Hp Ha Hd Hc Ho Hm e Hx) as E.
    unfold thrown, response, trace, handler. rewrite E. simpl.
    repeat split. discriminate.
Qed.

Lemma sdk_rejection_answered_witness :
  response (Sample.rejecting Sample.unprocessable) (Sample.order_for "12.50")
  = VObject [("status", VString "error");
             ("code", VNumber (of_Z 422));
             ("message", VString "UNPROCESSABLE_ENTITY")].
Proof.
  etransitivity.
  - apply (sdk_rejection_answered (Sample.rejecting Sample.unprocessable)
             (Sample.order_for "12.50") (Sample.order_for "12.50")
             (parseFloat_text "12.50")
             Sample.unprocessable); try reflexivity.
    left. repeat split.
  - reflexivity.
Defined.

End Properties.

(* ================================================================== *)
(** * Which requests reach the SDK *)

Module Decisions.

Import Number Js Sdk Run Main Spec Steps Effects Links Orders.

Local Open Scope js_scope.

(** What passes the pattern of the order id is truthy: the first test of
    line 104 never decides. *)
Lemma test_order_id_truthy room v :
  test_order_id room v = Converted true -> truthy v = true.
Proof.
  intros H. destruct v as [| | b | n | s | l | ps]; try reflexivity.
  - cbv in H. discriminate H.
  - cbv in H. discriminate H.
  - destruct b; [reflexivity | cbv in H; discriminate H].
  - destruct n as [z | z | | z m e]; try reflexivity;
      try destruct z; cbv in H; discriminate H.
  - destruct s; [cbv in H; discriminate H | reflexivity].
Qed.

(** Only arrays and objects have a conversion that throws. *)
Lemma conversion_error_truthy {A : Type} h room (f : string -> A) v e :
  conversion_error h (convert_with f (ToString room v)) = Some e ->
  truthy v = true.
Proof.
  destruct v as [| | b | n | s | l | ps]; try reflexivity; discriminate.
Qed.

Lemma conversion_error_kind {A : Type} h (c : conversion A) e :
  conversion_error h c = Some e ->
  e = TypeError h "Cannot convert object to primitive value"
  \/ e = RangeError h "Maximum call stack size exceeded".
Proof. destruct c; simpl; intros E; inversion E; auto. Qed.

Section Branches.

Variables (h : host) (c : PayPalHttpClient) (payload : value).

Hypothesis payload_present : truthy payload = true.
Hypothesis data_present : truthy (property payload "data") = true.

Lemma createOrder_invalid amount :
  parseFloat (stack_room h) (property (property payload "data") "amount")
  = Converted amount ->
  isNaN amount || le amount zero = true ->
  createOrder h c payload
  = json (error_response 400 "Invalid amount specified").
Proof.
  intros Hn Hbad. unfold createOrder.
  rewrite (get2_truthy h _ _ _ payload_present data_present). step.
  rewrite (converted_value h _ _ Hn). step.
  now rewrite Hbad.
Qed.

Lemma createOrder_unconverted e :
  conversion_error h
    (parseFloat (stack_room h) (property (property payload "data") "amount"))
  = Some e ->
  createOrder h c payload = throw e.
Proof.
  intros He. unfold createOrder.
  rewrite (get2_truthy h _ _ _ payload_present data_present). step.
  now rewrite (converted_error h _ _ He).
Qed.

Lemma captureOrder_invalid :
  test_order_id (stack_room h) (property (property payload "data") "orderId")
  = Converted false ->
  captureOrder h c payload = json (error_response 400 "Invalid order ID").
Proof.
  intros Hbad. unfold captureOrder.
  rewrite !(get2_truthy h _ _ _ payload_present data_present). step.
  destruct (truthy (property (property payload "data") "orderId")); simpl.
  - step. rewrite (converted_value h _ _ Hbad). step. reflexivity.
  - reflexivity.
Qed.

Lemma captureOrder_unconverted e :
  conversion_error h
    (test_order_id (stack_room h)
       (property (property payload "data") "orderId"))
  = Some e ->
  captureOrder h c payload = throw e.
Proof.
  intros He. pose proof (conversion_error_truthy _ _ _ _ _ He) as Ho.
  unfold captureOrder.
  rewrite !(get2_truthy h _ _ _ payload_present data_present). step.
  rewrite Ho. simpl negb. cbv iota. step.
  now rewrite (converted_error h _ _ He).
Qed.

Lemma captureOrder_trace log :
  test_order_id (stack_room h) (property (property payload "data") "orderId")
  = Converted true ->
  fst (captureOrder h c payload log) =
    (log ++ [Executed c (capture_request
                           (property (property payload "data") "orderId"))])%list.
Proof.
  intros Hm. pose proof (test_order_id_truthy _ _ Hm) as Ho.
  unfold captureOrder.
  rewrite !(get2_truthy h _ _ _ payload_present data_present). step.
  rewrite Ho. simpl negb. cbv iota. step.
  rewrite (converted_value h _ _ Hm). step. simpl negb. step.
  cbv iota. apply await_execute_trace. intros v. silence.
Qed.

End Branches.


(** A payload whose properties cannot be read is [null], and was a text. *)
Lemma nullish_payload body payload :
  truthy body = true ->
  parse_payload body = Some payload ->
  nullish payload = true ->
  payload = VNull.
Proof.
  intros Hb Hp Hn. destruct payload; try discriminate Hn; [| reflexivity].
  destruct body; simpl in Hp; try (inversion Hp; subst; discriminate Hb).
  now elim (Parsing.JSON_parse_defined _ _ Hp).
Qed.

(** Every run of the [try] block, by what the checks decide. *)
Lemma try_block_cases h body :
  match admitted h body with
  | Some r => fst (try_block h body []) = [Executed (client h) r]
  | None =>
      (exists m,
          In m validation_messages
          /\ try_block h body [] = ([], Normal (error_response 400 m)))
      \/ (configured h = false
          /\ try_block h body []
             = ([], Thrown (Error h "PayPal credentials not configured")))
      \/ (parse_payload body = Some VNull
          /\ try_block h body []
             = ([], Thrown (TypeError h
                  "Cannot read properties of null (reading 'action')")))
      \/ (exists payload e,
             parse_payload body = Some payload
             /\ configured h = true
             /\ ((is_literal (property payload "action") "createOrder" = true
                  /\ conversion_error h
                       (parseFloat (stack_room h)
                          (property (property payload "data") "amount"))
                     = Some e)
                 \/ (is_literal (property payload "action") "captureOrder"
                     = true
                     /\ conversion_error h
                          (test_order_id (stack_room h)
                             (property (property payload "data") "orderId"))
                        = Some e))
             /\ try_block h body [] = ([], Thrown e))
  end.
Proof.
  unfold admitted.
  destruct (parse_payload body) as [payload |] eqn:Hp.
  2:{ left. unfold try_block. rewrite Hp.
      destruct (truthy body); simpl; eexists; (split; [| reflexivity]);
        simpl; tauto. }
  destruct (truthy (property payload "action")) eqn:Ha;
    [destruct (truthy (property payload "data")) eqn:Hd |].
  - destruct (payload_truthy _ _ _ Hp Ha) as [_ Ht].
    destruct (configured h) eqn:Hc; cbv [andb].
    + rewrite (try_block_configured h _ _ Hp Ha Hd Hc).
      destruct (is_literal (property payload "action") "createOrder") eqn:Hk.
      { destruct (conversion_cases h
                    (parseFloat (stack_room h)
                       (property (property payload "data") "amount")))
          as [[amount Hn] | [e He]].
        - rewrite Hn.
          destruct (isNaN amount || le amount zero) eqn:Hv.
          + left. rewrite (createOrder_invalid h _ _ Ht Hd _ Hn Hv).
            eexists. split; [| reflexivity]. simpl; tauto.
          + exact (createOrder_trace h _ _ _ [] Ht Hd Hn Hv).
        - assert (En : match parseFloat (stack_room h)
                               (property (property payload "data") "amount")
                       with
                       | Converted amount =>
                           if isNaN amount || le amount zero then None
                           else Some (order_request
                                        (property (property payload "data")
                                           "currency") amount)
                       | _ => None
                       end = None)
            by (destruct (parseFloat _ _); [discriminate He | |]; reflexivity).
          rewrite En. right. right. right. exists payload, e.
          repeat split; [now left |].
          now rewrite (createOrder_unconverted h _ _ Ht Hd _ He). }
      destruct (is_literal (property payload "action") "captureOrder") eqn:Hk'.
      { destruct (conversion_cases h
                    (test_order_id (stack_room h)
                       (property (property payload "data") "orderId")))
          as [[matches Hm] | [e He]].
        - rewrite Hm. destruct matches.
          + exact (captureOrder_trace h _ _ Ht Hd [] Hm).
          + left. rewrite (captureOrder_invalid h _ _ Ht Hd Hm).
            eexists. split; [| reflexivity]. simpl; tauto.
        - assert (En : match test_order_id (stack_room h)
                               (property (property payload "data") "orderId")
                       with
                       | Converted true =>
                           Some (capture_request
                                   (property (property payload "data")
                                      "orderId"))
                       | _ => None
                       end = None)
            by (destruct (test_order_id _ _); [discriminate He | |];
                reflexivity).
          rewrite En. right. right. right. exists payload, e.
          repeat split; [now right |].
          now rewrite (captureOrder_unconverted h _ _ Ht Hd _ He). }
      left. eexists. split; [| reflexivity]. simpl; tauto.
    + right. left. split; [reflexivity |].
      now rewrite (try_block_unconfigured h _ _ Hp Ha Hd Hc).
  - cbv [andb].
    destruct (truthy body) eqn:Hb.
    2:{ left. unfold try_block. rewrite Hb. eexists.
        split; [| reflexivity]. simpl; tauto. }
    destruct (nullish payload) eqn:Hn.
    + rewrite (nullish_payload _ _ Hb Hp Hn) in Ha. discriminate Ha.
    + left. unfold try_block. rewrite Hb, Hp. simpl negb. cbv iota.
      rewrite (missing_parameter_absent h _ Hn) by (now right).
      eexists. split; [| reflexivity]. simpl; tauto.
  - cbv [andb].
    destruct (truthy body) eqn:Hb.
    2:{ left. unfold try_block. rewrite Hb. eexists.
        split; [| reflexivity]. simpl; tauto. }
    destruct (nullish payload) eqn:Hn.
    + right. right. left. pose proof (nullish_payload _ _ Hb Hp Hn) as E.
      subst payload.
      split; [reflexivity |]. unfold try_block. rewrite Hb, Hp. reflexivity.
    + left. unfold try_block. rewrite Hb, Hp. simpl negb. cbv iota.
      rewrite (missing_parameter_absent h _ Hn) by (now left).
      eexists. split; [| reflexivity]. simpl; tauto.
Qed.


Lemma admitted_configured h body r :
  admitted h body = Some r -> configured h = true.
Proof.
  unfold admitted. destruct (parse_payload body) as [payload |]; [| discriminate].
  destruct (truthy (property payload "action")); [| discriminate].
  destruct (truthy (property payload "data")); [| discriminate].
  destruct (configured h); [reflexivity | discriminate].
Qed.

(** The effects of an invocation, in order. *)
Lemma trace_of_invocation h body :
  trace h body
  = (match admitted h body with
     | Some r => [Executed (client h) r]
     | None => []
     end
     ++ match thrown h body with
        | Some e => [Logged "Server Error:" e]
        | None => []
        end)%list.
Proof.
  pose proof (try_block_cases h body) as H.
  unfold trace, thrown, handler.
  destruct (admitted h body) as [r |].
  - destruct (try_block h body []) as [log [a | e]]; simpl in *; subst log;
      reflexivity.
  - destruct H as [(m & _ & ->) | [(_ & ->) | [(_ & ->) | (p & e & _ & _ & _ & ->)]]];
      reflexivity.
Qed.

(** A success is answered only after the call the checks admit. *)
Lemma success_after_call h body :
  property (response h body) "status" = VString "success" ->
  exists r,
    admitted h body = Some r /\ trace h body = [Executed (client h) r].
Proof.
  intros Hs. rewrite trace_of_invocation.
  pose proof (try_block_cases h body) as H.
  unfold response, thrown, handler in *.
  destruct (admitted h body) as [r |].
  - exists r. split; [reflexivity |].
    destruct (try_block h body []) as [log [a | e]]; simpl in *;
      [reflexivity | discriminate Hs].
  - destruct H as [(m & _ & E) | [(_ & E) | [(_ & E) | (p & e & _ & _ & _ & E)]]];
      rewrite E in Hs; discriminate Hs.
Qed.

(** X8.  The effects of an invocation, in order: at most one call of the
    SDK, made with the client of the environment and the request the checks
    admit, then the log of the exception, if one was thrown.  Nothing is
    called twice, and nothing is logged but a caught exception. *)
Theorem trace_shape h body :
  trace h body
  = (match admitted h body with
     | Some r => [Executed (client h) r]
     | None => []
     end
     ++ match thrown h body with
        | Some e => [Logged "Server Error:" e]
        | None => []
        end)%list.
Proof. exact (trace_of_invocation h body). Qed.

(** X9.  The SDK is called only when both credentials are set, and the
    client it is called on holds them: in a live environment when
    [PAYPAL_ENVIRONMENT] is ['production'], in a sandbox otherwise. *)
Theorem sdk_called_with_credentials h body c r :
  In (Executed c r) (trace h body) ->
  truthy (env h "PAYPAL_CLIENT_ID") = true
  /\ truthy (env h "PAYPAL_SECRET") = true
  /\ client_environment c
     = (if is_literal (env h "PAYPAL_ENVIRONMENT") "production"
        then LiveEnvironment (env h "PAYPAL_CLIENT_ID") (env h "PAYPAL_SECRET")
        else SandboxEnvironment (env h "PAYPAL_CLIENT_ID")
                                (env h "PAYPAL_SECRET")).
Proof.
  rewrite trace_of_invocation. intros Hin. apply in_app_or in Hin.
  destruct (admitted h body) as [r' |] eqn:Ea.
  - pose proof (admitted_configured _ _ _ Ea) as Hc.
    apply andb_true_iff in Hc. destruct Hc as [Hid Hsecret].
    destruct Hin as [[E | []] | Hin].
    + inversion E; subst. repeat split; assumption.
    + destruct (thrown h body); [destruct Hin as [E | []] | destruct Hin];
        discriminate E.
  - destruct Hin as [[] | Hin].
    destruct (thrown h body); [destruct Hin as [E | []] | destruct Hin];
      discriminate E.
Qed.

Lemma sdk_called_with_credentials_witness :
  In (Executed (client Sample.live)
        (capture_request (VString "5O190127TN364715T")))
     (trace Sample.live (Sample.capture_of "5O190127TN364715T"))
  /\ client_environment (client Sample.live)
     = LiveEnvironment (VString "AZDxjDScFpQtjWTOUtWKbyN")
         (VString "EGnHDxD_qRPdaLdZz8iCr8N").
Proof.
  assert (Hin : In (Executed (client Sample.live)
                      (capture_request (VString "5O190127TN364715T")))
                   (trace Sample.live (Sample.capture_of "5O190127TN364715T")))
    by (left; reflexivity).
  split; [exact Hin |].
  destruct (sdk_called_with_credentials _ _ _ _ Hin) as (_ & _ & E).
  etransitivity; [exact E | reflexivity].
Defined.

(** X10.  A success is answered only after the one call of the SDK the
    checks admit, and with nothing logged. *)
Theorem success_follows_one_call h body :
  property (response h body) "status" = VString "success" ->
  exists r,
    admitted h body = Some r /\ trace h body = [Executed (client h) r].
Proof. exact (success_after_call h body). Qed.

Lemma success_follows_one_call_witness :
  exists r,
    admitted Sample.development (VString Sample.order_text) = Some r
    /\ trace Sample.development (VString Sample.order_text)
       = [Executed (client Sample.development) r].
Proof.
  apply (success_follows_one_call Sample.development
           (VString Sample.order_text)).
  reflexivity.
Defined.

(** X11.  An invocation without any effect (no call, nothing logged) was
    answered one of the six fixed responses with code 400. *)
Theorem validation_answers_fixed h body :
  trace h body = [] ->
  exists m,
    In m validation_messages /\ response h body = error_response 400 m.
Proof.
  rewrite trace_of_invocation. intros Ht.
  pose proof (try_block_cases h body) as H.
  unfold response, thrown, handler in *.
  destruct (admitted h body) as [r |]; [discriminate Ht |].
  destruct H as [(m & Hm & E) | [(_ & E) | [(_ & E) | (p & e & _ & _ & _ & E)]]];
    rewrite E in *.
  - exists m. split; [exact Hm | reflexivity].
  - discriminate Ht.
  - discriminate Ht.
  - discriminate Ht.
Qed.

Lemma validation_answers_fixed_witness :
  exists m,
    In m validation_messages
    /\ response Sample.live (Sample.capture_of "5O190127TN36471")
       = error_response 400 m.
Proof.
  apply (validation_answers_fixed Sample.live
           (Sample.capture_of "5O190127TN36471")).
  reflexivity.
Defined.

(** X12.  Before the SDK is called three exceptions occur: the missing
    credentials, the TypeError of a body whose text is [null], and, with the
    credentials set, what the conversion of the amount or of the order id to
    a string throws: a TypeError for an object with an own [toString]
    property, a RangeError for arrays nested beyond the room of the
    stack. *)
Theorem early_exceptions h body e :
  sdk_calls (trace h body) = [] ->
  thrown h body = Some e ->
  (configured h = false
   /\ e = Error h "PayPal credentials not configured")
  \/ (parse_payload body = Some VNull
      /\ e = TypeError h "Cannot read properties of null (reading 'action')")
  \/ (configured h = true
      /\ (e = TypeError h "Cannot convert object to primitive value"
          \/ e = RangeError h "Maximum call stack size exceeded")
      /\ exists payload,
           parse_payload body = Some payload
           /\ ((is_literal (property payload "action") "createOrder" = true
                /\ conversion_error h
                     (parseFloat (stack_room h)
                        (property (property payload "data") "amount"))
                   = Some e)
               \/ (is_literal (property payload "action") "captureOrder"
                   = true
                   /\ conversion_error h
                        (test_order_id (stack_room h)
                           (property (property payload "data") "orderId"))
                      = Some e))).
Proof.
  rewrite trace_of_invocation, sdk_calls_app.
  pose proof (try_block_cases h body) as H.
  unfold thrown in *.
  destruct (admitted h body) as [r |]; [discriminate |].
  intros _ He.
  destruct H as [(m & _ & E) | [(Hc & E) | [(Hp & E) | (p & e' & Hp & Hc & Hk & E)]]];
    rewrite E in He; simpl in He; inversion He; subst; auto.
  right. right. split; [exact Hc |]. split.
  - destruct Hk as [(_ & Hk) | (_ & Hk)];
      apply conversion_error_kind in Hk; exact Hk.
  - exists p. split; assumption.
Qed.

Lemma early_exceptions_witness :
  thrown Sample.live
    (Sample.request_of "createOrder" "amount" Sample.unconvertible)
  = Some (TypeError Sample.live "Cannot convert object to primitive value")
  /\ configured Sample.live = true.
Proof.
  split; [reflexivity |].
  destruct (early_exceptions Sample.live
              (Sample.request_of "createOrder" "amount" Sample.unconvertible)
              (TypeError Sample.live
                 "Cannot convert object to primitive value")
              eq_refl eq_refl) as [(Hc & _) | [(Hp & _) | (Hc & _)]].
  - discriminate Hc.
  - discriminate Hp.
  - exact Hc.
Defined.


(** X13.  What passes the pattern is truthy, so the test of the pattern
    alone decides a capture.  With credentials set, the request reaches the
    SDK when [data.orderId] is converted to a string that matches, and is
    answered ['Invalid order ID'] when it is converted to a string that does
    not; when the conversion throws, the exception is logged and answered
    with code 500, and the SDK is not called. *)
Theorem capture_decided_by_pattern h body payload :
  let orderId := property (property payload "data") "orderId" in
  parse_payload body = Some payload ->
  is_literal (property payload "action") "captureOrder" = true ->
  truthy (property payload "data") = true ->
  configured h = true ->
  match test_order_id (stack_room h) orderId with
  | Converted true =>
      truthy orderId = true
      /\ sdk_calls (trace h body) = [capture_request orderId]
  | Converted false =>
      handler h body = ([], error_response 400 "Invalid order ID")
  | NotPrimitive =>
      handler h body
      = ([Logged "Server Error:"
            (TypeError h "Cannot convert object to primitive value")],
         failure h 500 "Cannot convert object to primitive value"
           (stack_of h
              "TypeError: Cannot convert object to primitive value"))
  | StackExceeded =>
      handler h body
      = ([Logged "Server Error:"
            (RangeError h "Maximum call stack size exceeded")],
         failure h 500 "Maximum call stack size exceeded"
           (stack_of h "RangeError: Maximum call stack size exceeded"))
  end.
Proof.
  intros orderId Hp Ha Hd Hc.
  pose proof (is_literal_truthy _ _ _ _ Ha) as Hat.
  destruct (try_block_capture h body payload Hp Ha Hd Hc) as [E Ht].
  destruct (test_order_id (stack_room h) orderId) as [[|] | |] eqn:Hm.
  - split; [now apply (test_order_id_truthy _ _ Hm) |].
    rewrite sdk_calls_trace, E.
    now rewrite (captureOrder_trace h _ _ Ht Hd [] Hm).
  - apply handler_normal. rewrite E.
    now rewrite (captureOrder_invalid h _ _ Ht Hd Hm).
  - rewrite (handler_thrown h body []
               (TypeError h "Cannot convert object to primitive value")).
    + unfold catch_response, failure, production. simpl.
      now destruct (is_literal (env h "NODE_ENV") "production").
    + rewrite E. rewrite (captureOrder_unconverted h _ _ Ht Hd
                            (TypeError h
                               "Cannot convert object to primitive value"));
        [reflexivity |].
      fold orderId. now rewrite Hm.
  - rewrite (handler_thrown h body []
               (RangeError h "Maximum call stack size exceeded")).
    + unfold catch_response, failure, production. simpl.
      now destruct (is_literal (env h "NODE_ENV") "production").
    + rewrite E. rewrite (captureOrder_unconverted h _ _ Ht Hd
                            (RangeError h
                               "Maximum call stack size exceeded"));
        [reflexivity |].
      fold orderId. now rewrite Hm.
Qed.

Lemma capture_decided_by_pattern_witness :
  test_order_id (stack_room Sample.live) (VString "5O190127TN364715T")
  = Converted true
  /\ sdk_calls (trace Sample.live (Sample.capture_of "5O190127TN364715T"))
     = [capture_request (VString "5O190127TN364715T")].
Proof.
  split; [reflexivity |].
  pose proof (capture_decided_by_pattern Sample.live
                (Sample.capture_of "5O190127TN364715T")
                (Sample.capture_of "5O190127TN364715T")
                eq_refl eq_refl eq_refl eq_refl) as H.
  vm_compute in H. vm_compute. exact (proj2 H).
Defined.

(** X21.  With credentials set, an amount or an order id whose conversion
    to a string throws ends the [try] block at line 57 or line 104: the
    exception is logged and answered with code 500 and its message, and the
    SDK is not called. *)
Theorem conversion_exception_answered h body payload e :
  let data := property payload "data" in
  parse_payload body = Some payload ->
  truthy data = true ->
  configured h = true ->
  (is_literal (property payload "action") "createOrder" = true
   /\ conversion_error h
        (parseFloat (stack_room h) (property data "amount")) = Some e)
  \/ (is_literal (property payload "action") "captureOrder" = true
      /\ conversion_error h
           (test_order_id (stack_room h) (property data "orderId"))
         = Some e) ->
  handler h body = ([Logged "Server Error:" e], catch_response h e)
  /\ property (response h body) "code" = VNumber (of_Z 500)
  /\ property (response h body) "message" = message e
  /\ (message e = VString "Cannot convert object to primitive value"
      \/ message e = VString "Maximum call stack size exceeded").
Proof.
  intros data Hp Hd Hc Hk.
  assert (Et : try_block h body [] = ([], Thrown e)).
  { destruct Hk as [(Ha & He) | (Ha & He)].
    - exact (create_unconverted h body payload Hp Ha Hd Hc e He).
    - pose proof (conversion_error_truthy _ _ _ _ _ He) as Ho.
      exact (capture_unconverted h body payload Hp Ha Hd Hc Ho e He). }
  assert (Hkind : e = TypeError h "Cannot convert object to primitive value"
                  \/ e = RangeError h "Maximum call stack size exceeded")
    by (destruct Hk as [(_ & He) | (_ & He)];
        exact (conversion_error_kind _ _ _ He)).
  unfold response. rewrite (handler_thrown h body [] e Et).
  split; [reflexivity |].
  destruct Hkind as [-> | ->]; unfold catch_response, or_else; simpl; auto.
Qed.

Lemma conversion_exception_answered_witness :
  response Sample.live
    (Sample.request_of "createOrder" "amount"
       (VArray [VNumber (parseFloat_text "12.5"); Sample.unconvertible]))
  = error_response 500 "Cannot convert object to primitive value"
  /\ response Sample.live
       (Sample.request_of "captureOrder" "orderId"
          (Sample.nested (4 * 2000) (VString "5O190127TN364715T")))
     = error_response 500 "Maximum call stack size exceeded".
Proof.
  split.
  - destruct (conversion_exception_answered Sample.live
                (Sample.request_of "createOrder" "amount"
                   (VArray [VNumber (parseFloat_text "12.5");
                            Sample.unconvertible]))
                (Sample.request_of "createOrder" "amount"
                   (VArray [VNumber (parseFloat_text "12.5");
                            Sample.unconvertible]))
                (TypeError Sample.live
                   "Cannot convert object to primitive value")
                eq_refl eq_refl eq_refl
                (or_introl (conj eq_refl eq_refl))) as (E & _).
    unfold response. rewrite E. reflexivity.
  - assert (He : conversion_error Sample.live
                   (test_order_id (stack_room Sample.live)
                      (Sample.nested (4 * 2000)
                         (VString "5O190127TN364715T")))
                 = Some (RangeError Sample.live
                           "Maximum call stack size exceeded"))
      by (vm_compute; reflexivity).
    destruct (conversion_exception_answered Sample.live
                (Sample.request_of "captureOrder" "orderId"
                   (Sample.nested (4 * 2000) (VString "5O190127TN364715T")))
                (Sample.request_of "captureOrder" "orderId"
                   (Sample.nested (4 * 2000) (VString "5O190127TN364715T")))
                (RangeError Sample.live "Maximum call stack size exceeded")
                eq_refl eq_refl eq_refl
                (or_intror (conj eq_refl He))) as (E & _).
    unfold response. rewrite E. reflexivity.
Defined.

(** X14.  A body given as JSON text and the same body given as the value
    the text denotes are handled alike, when that value is truthy and not
    itself a string. *)
Theorem text_and_value_alike h text payload :
  JSON_parse text = Some payload ->
  truthy payload = true ->
  is_string payload = false ->
  handler h (VString text) = handler h payload.
Proof.
  intros Hp Ht Hs.
  assert (Hv : parse_payload payload = Some payload)
    by (destruct payload; try reflexivity; discriminate Hs).
  unfold handler, try_block. rewrite Hv, Ht.
  cbn [parse_payload truthy]. rewrite Hp.
  destruct text; [discriminate Hp | reflexivity].
Qed.

Lemma text_and_value_alike_witness :
  handler Sample.development (VString Sample.order_text)
  = handler Sample.development Sample.order_payload.
Proof.
  apply (text_and_value_alike Sample.development
           Sample.order_text Sample.order_payload); reflexivity.
Defined.


(** ** What a normal completion tells *)

Lemma get_normal h v k log log' x :
  get h v k log = (log', Normal x) ->
  nullish v = false /\ x = property v k /\ log' = log.
Proof.
  destruct v; simpl; intros E; inversion E; subst; repeat split.
Qed.

Lemma get2_normal h v k1 k2 log log' x :
  get2 h v k1 k2 log = (log', Normal x) ->
  nullish v = false /\ nullish (property v k1) = false
  /\ x = property (property v k1) k2 /\ log' = log.
Proof.
  unfold get2. intros E. apply bind_normal in E.
  destruct E as (a & l1 & E1 & E2).
  apply get_normal in E1. destruct E1 as (Hv & -> & ->).
  apply get_normal in E2. destruct E2 as (Hk & -> & ->).
  repeat split; assumption.
Qed.

(** What [find] returns is [undefined] or the first link whose [rel] is
    ['approve'], the links before it being objects of another [rel]. *)
Lemma Array_find_normal h l : forall log log' x,
  Array_find (is_approval_link h) l log = (log', Normal x) ->
  log' = log
  /\ (x = VUndefined
      \/ exists before after,
           l = (before ++ x :: after)%list
           /\ Forall (fun y => nullish y = false
                               /\ is_literal (property y "rel") "approve"
                                  = false) before
           /\ is_literal (property x "rel") "approve" = true).
Proof.
  induction l as [| y rest IH]; intros log log' x; simpl.
  - intros E. inversion E; subst. auto.
  - intros E. apply bind_normal in E. destruct E as (found & l1 & E1 & E2).
    unfold is_approval_link in E1. apply bind_normal in E1.
    destruct E1 as (rel & l2 & G & R). apply get_normal in G.
    destruct G as (Hy & -> & ->). inversion R; subst found l1. clear R.
    destruct (is_literal (property y "rel") "approve") eqn:Hr.
    + inversion E2; subst. split; [reflexivity |]. right.
      exists [], rest. repeat split; [constructor | exact Hr].
    + apply IH in E2. destruct E2 as (-> & [-> | (before & after & -> & Hb & Hx)]).
      * auto.
      * split; [reflexivity |]. right. exists (y :: before), after.
        repeat split; [constructor; auto | exact Hx].
Qed.

Lemma find_normal h text v log log' x :
  find h text v (is_approval_link h) log = (log', Normal x) ->
  exists l, v = VArray l
            /\ Array_find (is_approval_link h) l log = (log', Normal x).
Proof. destruct v; simpl; try discriminate. eauto. Qed.

Lemma get_optional_truthy v k :
  truthy (get_optional v k) = true ->
  nullish v = false /\ get_optional v k = property v k.
Proof. destruct v; simpl; try discriminate; auto. Qed.

(** What [admitted] says of a createOrder request. *)
Lemma admitted_create h body payload r :
  parse_payload body = Some payload ->
  is_literal (property payload "action") "createOrder" = true ->
  admitted h body = Some r ->
  truthy (property payload "data") = true
  /\ configured h = true
  /\ exists amount,
       parseFloat (stack_room h)
         (property (property payload "data") "amount") = Converted amount
       /\ isNaN amount || le amount zero = false
       /\ r = order_request (property (property payload "data") "currency")
                amount.
Proof.
  intros Hp Ha. unfold admitted. rewrite Hp, Ha.
  rewrite (is_literal_truthy _ _ _ _ Ha). cbv zeta.
  destruct (truthy (property payload "data")); [| discriminate].
  destruct (configured h); [| discriminate]. cbv [andb].
  destruct (parseFloat _ _) as [amount | |]; try discriminate.
  destruct (isNaN _ || le _ zero) eqn:Hv; [discriminate |].
  intros E; inversion E. repeat split. exists amount. repeat split.
  exact Hv.
Qed.

Lemma admitted_capture h body payload r :
  parse_payload body = Some payload ->
  is_literal (property payload "action") "captureOrder" = true ->
  admitted h body = Some r ->
  truthy (property payload "data") = true
  /\ configured h = true
  /\ test_order_id (stack_room h)
       (property (property payload "data") "orderId") = Converted true
  /\ r = capture_request (property (property payload "data") "orderId").
Proof.
  intros Hp Ha. unfold admitted. rewrite Hp, Ha.
  rewrite (is_literal_truthy _ _ _ _ Ha). cbv zeta.
  replace (is_literal (property payload "action") "createOrder") with false
    by now rewrite (is_literal_eq _ _ Ha).
  destruct (truthy (property payload "data")); [| discriminate].
  destruct (configured h); [| discriminate]. cbv [andb].
  destruct (test_order_id _ _) as [[|] | |]; try discriminate.
  intros E; inversion E. repeat split.
Qed.

Section AfterCreate.

Variables (h : host) (body payload : value).

Variable amount : number.

Let data := property payload "data".
Let currency := property data "currency".

Hypothesis parsed : parse_payload body = Some payload.
Hypothesis action : is_literal (property payload "action") "createOrder" = true.
Hypothesis data_present : truthy data = true.
Hypothesis credentials : configured h = true.
Hypothesis amount_parsed :
  parseFloat (stack_room h) (property data "amount") = Converted amount.
Hypothesis amount_valid : isNaN amount || le amount zero = false.

(** Lines 85-100, whatever the response is. *)
Lemma create_continued resp :
  execute h (client h) (order_request currency amount) = Resolved resp ->
  try_block h body [] =
    (links <- get2 h resp "result" "links" ;;
     approvalLink <-
       find h "createResponse.result.links" links (is_approval_link h) ;;
     if negb (truthy (get_optional approvalLink "href"))
     then throw (Error h "Missing approval URL in PayPal response")
     else
       orderId <- get2 h resp "result" "id" ;;
       approvalUrl <- get h approvalLink "href" ;;
       status <- get2 h resp "result" "status" ;;
       json (VObject [("status", VString "success");
                      ("data", VObject [("orderId", orderId);
                                        ("approvalUrl", approvalUrl);
                                        ("status", status)])]))
      [Executed (client h) (order_request currency amount)].
Proof.
  intros Hx.
  destruct (try_block_create h body payload parsed action data_present
              credentials) as [-> Ht].
  unfold createOrder.
  rewrite !(get2_truthy h _ _ _ Ht data_present). step.
  fold data. rewrite (converted_value h _ _ amount_parsed). step.
  rewrite amount_valid. step.
  now rewrite (await_execute_resolved h _ _ resp _ _ Hx).
Qed.

End AfterCreate.


(** X15.  A success answered to a createOrder request was made from a
    response of the SDK: its [approvalUrl] is the truthy [href] of the first
    link of [result.links] whose [rel] is ['approve'], and its [orderId] and
    [status] are those of the result. *)
Theorem created_from_approval_link h body payload :
  let data := property payload "data" in
  let currency := property data "currency" in
  parse_payload body = Some payload ->
  is_literal (property payload "action") "createOrder" = true ->
  property (response h body) "status" = VString "success" ->
  exists amount resp before link after,
    parseFloat (stack_room h) (property data "amount") = Converted amount
    /\ execute h (client h) (order_request currency amount) = Resolved resp
    /\ property (property resp "result") "links"
       = VArray (before ++ link :: after)
    /\ Forall (fun l => nullish l = false
                        /\ is_literal (property l "rel") "approve" = false)
         before
    /\ is_literal (property link "rel") "approve" = true
    /\ truthy (property link "href") = true
    /\ response h body
       = VObject
           [("status", VString "success");
            ("data",
             VObject [("orderId", property (property resp "result") "id");
                      ("approvalUrl", property link "href");
                      ("status", property (property resp "result") "status")])].
Proof.
  intros data currency Hp Ha Hs.
  destruct (success_after_call h body Hs) as (r & Hr & _).
  destruct (admitted_create h body payload r Hp Ha Hr)
    as (Hd & Hc & amount & Hn & Hv & _).
  fold data in Hd, Hn.
  destruct (execute h (client h) (order_request currency amount))
    as [resp | e] eqn:Hx.
  2:{ pose proof (create_rejected h body payload amount Hp Ha Hd Hc Hn Hv
                    e Hx) as E.
      unfold response, handler in Hs. rewrite E in Hs. discriminate Hs. }
  pose proof (create_continued h body payload amount Hp Ha Hd Hc Hn Hv
                resp Hx) as E.
  unfold response, handler in *.
  destruct (try_block h body []) as [log [a | e]]; [| discriminate Hs].
  simpl. symmetry in E.
  apply bind_normal in E. destruct E as (links & l1 & E1 & E).
  apply get2_normal in E1. destruct E1 as (Hresp & Hres & -> & ->).
  apply bind_normal in E. destruct E as (approvalLink & l2 & E2 & E).
  apply find_normal in E2. destruct E2 as (l & Hl & E2).
  apply Array_find_normal in E2. destruct E2 as (-> & Hfound).
  destruct (truthy (get_optional approvalLink "href")) eqn:Hhref;
    [| discriminate E]. simpl negb in E. cbv iota in E.
  destruct (get_optional_truthy _ _ Hhref) as (Hlink & Eh).
  rewrite Eh in Hhref.
  destruct Hfound as [-> | (before & after & -> & Hb & Hrel)];
    [discriminate Hlink |].
  rewrite !(get2_present h _ _ _ Hresp Hres) in E.
  rewrite (get_present h _ _ Hlink) in E.
  inversion E; subst.
  exists amount, resp, before, approvalLink, after. repeat split; assumption.
Qed.

Lemma created_from_approval_link_witness :
  exists amount resp before link after,
    parseFloat (stack_room Sample.development) (VString "12.50")
    = Converted amount
    /\ execute Sample.development (client Sample.development)
         (order_request (VString "USD") amount)
       = Resolved resp
    /\ property (property resp "result") "links"
       = VArray (before ++ link :: after)
    /\ Forall (fun l => nullish l = false
                        /\ is_literal (property l "rel") "approve" = false)
         before
    /\ is_literal (property link "rel") "approve" = true
    /\ truthy (property link "href") = true
    /\ response Sample.development (VString Sample.order_text)
       = VObject
           [("status", VString "success");
            ("data",
             VObject [("orderId", property (property resp "result") "id");
                      ("approvalUrl", property link "href");
                      ("status", property (property resp "result") "status")])].
Proof.
  apply (created_from_approval_link Sample.development
           (VString Sample.order_text) Sample.order_payload); reflexivity.
Defined.

(** X16.  A success answered to a captureOrder request was made from a
    response of the SDK with a truthy [result.id], which is its
    [captureId]; status and details are those of the result. *)
Theorem captured_from_result h body payload :
  let orderId := property (property payload "data") "orderId" in
  parse_payload body = Some payload ->
  is_literal (property payload "action") "captureOrder" = true ->
  property (response h body) "status" = VString "success" ->
  exists resp,
    execute h (client h) (capture_request orderId) = Resolved resp
    /\ truthy (property (property resp "result") "id") = true
    /\ response h body
       = VObject
           [("status", VString "success");
            ("data",
             VObject
               [("captureId", property (property resp "result") "id");
                ("status", property (property resp "result") "status");
                ("details",
                 VObject
                   [("payer", property (property resp "result") "payer");
                    ("create_time",
                     property (property resp "result") "create_time");
                    ("purchase_units",
                     property (property resp "result") "purchase_units")])])].
Proof.
  intros orderId Hp Ha Hs.
  destruct (success_after_call h body Hs) as (r & Hr & _).
  destruct (admitted_capture h body payload r Hp Ha Hr) as (Hd & Hc & Hm & _).
  fold orderId in Hm.
  pose proof (test_order_id_truthy _ _ Hm) as Ho.
  destruct (execute h (client h) (capture_request orderId))
    as [resp | e] eqn:Hx.
  2:{ pose proof (capture_rejected h body payload Hp Ha Hd Hc Ho Hm e Hx) as E.
      unfold response, handler in Hs. rewrite E in Hs. discriminate Hs. }
  pose proof (capture_resolved h body payload Hp Ha Hd Hc Ho Hm resp Hx) as E.
  exists resp. split; [reflexivity |].
  unfold response, handler in *. rewrite E in *. clear E.
  destruct (truthy (get_optional (get_optional resp "result") "id")) eqn:Hid;
    [| discriminate Hs].
  destruct (get_optional_truthy _ _ Hid) as (Hres & Eid).
  assert (Hresp : nullish resp = false)
    by (destruct resp; try discriminate Hres; reflexivity).
  rewrite (get_optional_present _ _ Hresp) in Hres, Eid, Hid.
  rewrite Eid in Hid. split; [exact Hid |].
  simpl negb. cbv iota.
  now rewrite !(get2_present h _ _ _ Hresp Hres).
Qed.

Lemma captured_from_result_witness :
  exists resp,
    execute (Sample.answering Sample.captured)
      (client (Sample.answering Sample.captured))
      (capture_request (VString "5O190127TN364715T")) = Resolved resp
    /\ truthy (property (property resp "result") "id") = true
    /\ response (Sample.answering Sample.captured)
         (Sample.capture_of "5O190127TN364715T")
       = VObject
           [("status", VString "success");
            ("data",
             VObject
               [("captureId", property (property resp "result") "id");
                ("status", property (property resp "result") "status");
                ("details",
                 VObject
                   [("payer", property (property resp "result") "payer");
                    ("create_time",
                     property (property resp "result") "create_time");
                    ("purchase_units",
                     property (property resp "result") "purchase_units")])])].
Proof.
  apply (captured_from_result (Sample.answering Sample.captured)
           (Sample.capture_of "5O190127TN364715T")
           (Sample.capture_of "5O190127TN364715T")); reflexivity.
Defined.


(** X17.  When the response to a valid createOrder request has no array
    under [result.links], the handler throws a TypeError while reading it:
    the answer has code 500 and the message of the TypeError, never
    ['Missing approval URL in PayPal response']. *)
Theorem links_not_an_array h body payload amount resp :
  let data := property payload "data" in
  let currency := property data "currency" in
  parse_payload body = Some payload ->
  is_literal (property payload "action") "createOrder" = true ->
  truthy data = true ->
  configured h = true ->
  parseFloat (stack_room h) (property data "amount") = Converted amount ->
  isNaN amount || le amount zero = false ->
  execute h (client h) (order_request currency amount) = Resolved resp ->
  (forall l, property (property resp "result") "links" <> VArray l) ->
  exists text,
    text <> "Missing approval URL in PayPal response"
    /\ handler h body =
       ([Executed (client h) (order_request currency amount);
         Logged "Server Error:" (TypeError h text)],
        failure h 500 text (stack_of h ("TypeError: " ++ text))).
Proof.
  intros data currency Hp Ha Hd Hc Hn Hv Hx Hnot.
  pose proof (create_continued h body payload amount Hp Ha Hd Hc Hn Hv
                resp Hx) as E.
  fold data currency in E.
  assert (Hcatch : forall text,
             truthy (VString text) = true ->
             catch_response h (TypeError h text)
             = failure h 500 text (stack_of h ("TypeError: " ++ text))).
  { intros text Ht. unfold catch_response, failure, production, TypeError, or_else.
    cbn [statusCode message stack]. rewrite Ht. cbn [truthy].
    now destruct (is_literal (env h "NODE_ENV") "production"). }
  assert (Hthrow : forall text,
             text <> "Missing approval URL in PayPal response" ->
             truthy (VString text) = true ->
             try_block h body []
             = ([Executed (client h) (order_request currency amount)],
                Thrown (TypeError h text)) ->
             exists text,
               text <> "Missing approval URL in PayPal response"
               /\ handler h body =
                  ([Executed (client h) (order_request currency amount);
                    Logged "Server Error:" (TypeError h text)],
                   failure h 500 text (stack_of h ("TypeError: " ++ text)))).
  { intros text Hne Ht Et. exists text. split; [exact Hne |].
    rewrite (handler_thrown h body _ _ Et). now rewrite (Hcatch _ Ht). }
  destruct (nullish resp) eqn:Hresp.
  { destruct resp; try discriminate Hresp;
      (eapply Hthrow; [| | rewrite E; reflexivity];
       [discriminate | reflexivity]). }
  destruct (nullish (property resp "result")) eqn:Hres.
  { unfold get2 in E. rewrite (get_present h _ _ Hresp) in E.
    destruct (property resp "result"); try discriminate Hres;
      (eapply Hthrow; [| | rewrite E; reflexivity];
       [discriminate | reflexivity]). }
  rewrite (get2_present h _ _ _ Hresp Hres) in E.
  destruct (property (property resp "result") "links") as [| | b | n | s | l | ps]
    eqn:Hl;
    try (eapply Hthrow; [| | rewrite E; reflexivity];
         [discriminate | reflexivity]).
  now elim (Hnot l).
Qed.

Lemma links_not_an_array_witness :
  exists text,
    text <> "Missing approval URL in PayPal response"
    /\ handler Sample.linkless (Sample.order_for "12.50") =
       ([Executed (client Sample.linkless)
           (order_request VUndefined (parseFloat_text "12.50"));
         Logged "Server Error:" (TypeError Sample.linkless text)],
        failure Sample.linkless 500 text
          (stack_of Sample.linkless ("TypeError: " ++ text))).
Proof.
  apply (links_not_an_array Sample.linkless (Sample.order_for "12.50")
           (Sample.order_for "12.50") (parseFloat_text "12.50")
           Sample.created_without_links);
    try reflexivity.
  intros l. discriminate.
Defined.


(** X18.  What is handed to the SDK has passed its check: a create request
    carries an amount that is a number above zero, a capture request an
    order id that matches the pattern. *)
Theorem only_checked_requests_sent h body c r :
  In (Executed c r) (trace h body) ->
  exists payload,
    parse_payload body = Some payload
    /\ ((exists amount,
            parseFloat (stack_room h)
              (property (property payload "data") "amount")
            = Converted amount
            /\ r = order_request
                     (property (property payload "data") "currency") amount
            /\ isNaN amount = false
            /\ le amount zero = false)
        \/ (r = capture_request (property (property payload "data") "orderId")
            /\ exists text,
                 ToString (stack_room h)
                   (property (property payload "data") "orderId")
                 = Converted text
                 /\ order_id_pattern text = true)).
Proof.
  rewrite trace_of_invocation. intros Hin. apply in_app_or in Hin.
  assert (Ha : admitted h body = Some r).
  { destruct (admitted h body) as [r' |].
    - destruct Hin as [[E | []] | Hin]; [now inversion E |].
      destruct (thrown h body); [destruct Hin as [E | []] | destruct Hin];
        discriminate E.
    - destruct Hin as [[] | Hin].
      destruct (thrown h body); [destruct Hin as [E | []] | destruct Hin];
        discriminate E. }
  clear Hin. unfold admitted in Ha.
  destruct (parse_payload body) as [payload |]; [| discriminate Ha].
  exists payload. split; [reflexivity |]. cbv zeta in Ha.
  destruct (truthy _ && truthy _ && configured h); [| discriminate Ha].
  destruct (is_literal (property payload "action") "createOrder").
  - destruct (parseFloat _ _) as [amount | |]; try discriminate Ha.
    destruct (isNaN _ || le _ zero) eqn:Hv; [discriminate Ha |].
    apply orb_false_iff in Hv. destruct Hv as [Hn Hl].
    left. inversion Ha. exists amount. repeat split; assumption.
  - destruct (is_literal (property payload "action") "captureOrder");
      [| discriminate Ha].
    unfold test_order_id in Ha.
    destruct (ToString _ _) as [text | |]; try discriminate Ha.
    cbn [convert_with] in Ha.
    destruct (order_id_pattern text) eqn:Hm; [| discriminate Ha].
    right. inversion Ha. split; [reflexivity |].
    exists text. split; [reflexivity | exact Hm].
Qed.

Lemma only_checked_requests_sent_witness :
  exists payload,
    parse_payload (VString Sample.order_text) = Some payload
    /\ ((exists amount,
            parseFloat (stack_room Sample.development)
              (property (property payload "data") "amount")
            = Converted amount
            /\ order_request (VString "USD") (parseFloat_text "12.50")
               = order_request
                   (property (property payload "data") "currency") amount
            /\ isNaN amount = false
            /\ le amount zero = false)
        \/ (order_request (VString "USD") (parseFloat_text "12.50")
            = capture_request (property (property payload "data") "orderId")
            /\ exists text,
                 ToString (stack_room Sample.development)
                   (property (property payload "data") "orderId")
                 = Converted text
                 /\ order_id_pattern text = true)).
Proof.
  apply (only_checked_requests_sent Sample.development
           (VString Sample.order_text) (client Sample.development)).
  left. reflexivity.
Defined.

End Decisions.

(* ================================================================== *)
(** * The stack texts and the answer *)

Module Stacks.

Import Number Js Sdk Run Main Spec Steps Effects.

Local Open Scope js_scope.

Lemma similar_ret {A : Type} (a : A) : similar (ret a) (ret a).
Proof. intros log. split; reflexivity. Qed.

Lemma similar_throw {A : Type} (e1 e2 : error) :
  statusCode e1 = statusCode e2 -> message e1 = message e2 ->
  similar (@throw A e1) (@throw A e2).
Proof. intros Hc Hm log. split; [reflexivity | split; assumption]. Qed.

Lemma similar_bind {A B : Type} (c1 c2 : Js A) (k1 k2 : A -> Js B) :
  similar c1 c2 -> (forall a, similar (k1 a) (k2 a)) ->
  similar (bind c1 k1) (bind c2 k2).
Proof.
  intros Hc Hk log. unfold bind. specialize (Hc log).
  destruct (c1 log) as [l1 [a1 | e1]], (c2 log) as [l2 [a2 | e2]];
    destruct Hc as [Hl Hr]; simpl in Hl, Hr; subst; try contradiction.
  - apply Hk.
  - split; [reflexivity | exact Hr].
Qed.

Section TwoHosts.

Variables h1 h2 : host.

Hypothesis same : same_service h1 h2.

Lemma same_env name : env h1 name = env h2 name.
Proof. unfold env. now rewrite (proj1 same name). Qed.

Lemma similar_get v k : similar (get h1 v k) (get h2 v k).
Proof.
  destruct v; simpl;
    first [apply similar_ret | apply similar_throw; reflexivity].
Qed.

Lemma similar_get2 v k1 k2 : similar (get2 h1 v k1 k2) (get2 h2 v k1 k2).
Proof. apply similar_bind; [apply similar_get | intros; apply similar_get]. Qed.

Lemma similar_is_approval_link link :
  similar (is_approval_link h1 link) (is_approval_link h2 link).
Proof.
  apply similar_bind; [apply similar_get | intros; apply similar_ret].
Qed.

Lemma similar_Array_find l :
  similar (Array_find (is_approval_link h1) l)
          (Array_find (is_approval_link h2) l).
Proof.
  induction l as [| x rest IH]; simpl.
  - apply similar_ret.
  - apply similar_bind; [apply similar_is_approval_link |].
    intros [|]; [apply similar_ret | exact IH].
Qed.

Lemma similar_find text v :
  similar (find h1 text v (is_approval_link h1))
          (find h2 text v (is_approval_link h2)).
Proof.
  destruct v; simpl;
    first [apply similar_throw; reflexivity | apply similar_Array_find].
Qed.

Lemma similar_await_execute c r :
  similar (await_execute h1 c r) (await_execute h2 c r).
Proof.
  intros log. unfold await_execute, bind, emit. simpl.
  rewrite (proj1 (proj2 same) c r).
  destruct (execute h2 c r); split; simpl; auto.
Qed.

Lemma similar_converted {A : Type} (c : conversion A) :
  similar (converted h1 c) (converted h2 c).
Proof.
  destruct c; simpl;
    first [apply similar_ret | apply similar_throw; reflexivity].
Qed.

Lemma similar_createPayPalClient :
  similar (createPayPalClient h1) (createPayPalClient h2).
Proof.
  unfold createPayPalClient. rewrite !same_env.
  destruct (negb _ || negb _).
  - apply similar_throw; reflexivity.
  - apply similar_ret.
Qed.

Ltac alike :=
  repeat first
    [ apply similar_ret
    | apply similar_createPayPalClient
    | apply similar_get | apply similar_get2 | apply similar_find
    | apply similar_converted
    | apply similar_await_execute
    | apply similar_throw; reflexivity
    | apply similar_bind; [| intro]
    | progress cbv zeta
    | match goal with |- similar (if ?b then _ else _) (if ?b then _ else _) =>
        destruct b
      end ].

(** The [try] block ends alike on both hosts. *)
Lemma similar_try_block body :
  similar (try_block h1 body) (try_block h2 body).
Proof.
  unfold try_block, missing_parameter, createOrder, captureOrder, json.
  rewrite (proj2 (proj2 same)).
  destruct (negb (truthy body)); [apply similar_ret |].
  destruct (parse_payload body) as [payload |]; [| apply similar_ret].
  alike.
Qed.

End TwoHosts.




End Stacks.
